(** * The servers resource controller of the OpenStack API (nova)

    A shallow embedding of [nova/api/openstack/servers.py]: the option
    sanitizer [check_admin_search_options], the listing pipeline
    ([index], [detail], [_servers_from_request], [_servers_search]), the
    [update] handler, the action dispatcher [action] with its handlers,
    the administrative lifecycle handlers, the two [delete] handlers and
    the headers serializer.  The methods [show], [create], [diagnostics]
    and [actions] are not part of it.

    Python objects that travel through the handlers are modelled as
    follows.
    - Request bodies are JSON-like values ([json]); the operators [in],
      [x[k]], truth testing and iteration are written out for every shape
      of value, with the exceptions Python raises.  Integers stand for
      all numbers: the operators used here treat every number alike.
    - The search options are a dictionary from option name to value: a
      [gmap string value].  Where the source changes the dictionary in
      place, the functions pass it on explicitly.
    - A handler runs in the monad [M]: it threads the log of the calls made
      to the compute API and ends by returning a value or by raising an
      exception.  The compute API itself is an arbitrary function of that
      log and of the call.
    - The model's exceptions are the instances of Python's [Exception];
      for them [except:] and [except Exception] catch the same things.
      The classes of [webob.exc] are among them.
    - A string is a sequence of characters with codes below 256: the
      bytes of a byte string (the values of the query, the id of the
      URL), the code points of a unicode string (the strings of a parsed
      body).  The two kinds strip differently ([strip], [unicode_strip]).
    - Logging and the translation of messages ([_]) leave no trace. *)

From stdpp Require Import gmap strings list fin_maps pretty.
From Stdlib Require Import ZArith Ascii String Permutation.

Local Open Scope Z_scope.
Local Open Scope string_scope.
Local Open Scope list_scope.

(** ** Python values *)

#[warnings="-register-all"]
Inductive json : Type :=
  | JNone
  | JBool (b : bool)
  | JInt (z : Z)
  | JStr (s : string)
  | JList (l : list json)
  | JDict (d : list (string * json)).

(** A value stored in the search options: the strings of the query, and
    what the coercions put in their place. *)
Inductive value : Type :=
  | VStr (s : string)
  | VBool (b : bool)
  | VInt (z : Z)
  | VStates (l : list Z).

(** [webob.Response]: the status and the body.  For the classes of
    [webob.exc] the body field holds the explanation the error document
    is rendered from. *)
Record Response : Type := mkResponse { status_int : Z; body : string }.

Inductive exn : Type :=
  (* nova.exception *)
  | NotFound
  | Invalid
  | InvalidInput (reason : string)
  | AdminRequired
  | BuildInProgress
  (* nova.scheduler.api *)
  | RedirectResult (results : json)
  (* webob.exc *)
  | HTTPException (r : Response)
  (* builtins *)
  | KeyError (k : string)
  | TypeError
  | ValueError
  | AttributeError
  | NotImplementedError
  (* any other instance of Exception *)
  | Error (name : string).

Inductive result (A : Type) : Type :=
  | Return (a : A)
  | Raise (e : exn).
Arguments Return {A} a.
Arguments Raise {A} e.

(** What a controller method hands back: a response object of its own, or
    a value ([None], a dictionary) left to the serializer. *)
Inductive retval : Type :=
  | RResponse (r : Response)
  | RValue (v : json).

Module exc.
Definition HTTPBadRequest (explanation : string) := mkResponse 400 explanation.
Definition HTTPForbidden (detail : string) := mkResponse 403 detail.
Definition HTTPNotFound := mkResponse 404 "".
Definition HTTPConflict (explanation : string) := mkResponse 409 explanation.
Definition HTTPUnprocessableEntity := mkResponse 422 "".
Definition HTTPNotImplemented := mkResponse 501 "".
Definition HTTPNoContent := mkResponse 204 "".
End exc.

Module webob.
(** [webob.Response(status_int=n)]: no body. *)
Definition Response (status : Z) := mkResponse status "".
End webob.

(** [isinstance(e, exception.Invalid)]: [InvalidInput] derives from
    [Invalid]. *)
Definition is_Invalid (e : exn) : bool :=
  match e with Invalid | InvalidInput _ => true | _ => false end.

Definition is_NotFound (e : exn) : bool :=
  match e with NotFound => true | _ => false end.

Definition is_AdminRequired (e : exn) : bool :=
  match e with AdminRequired => true | _ => false end.

Definition is_BuildInProgress (e : exn) : bool :=
  match e with BuildInProgress => true | _ => false end.

Definition is_KeyError_or_TypeError (e : exn) : bool :=
  match e with KeyError _ | TypeError => true | _ => false end.

(** ** Operators on values *)

Fixpoint dict_get (k : string) (d : list (string * json)) : option json :=
  match d with
  | [] => None
  | (k', v) :: d' => if String.eqb k k' then Some v else dict_get k d'
  end.

Fixpoint dict_set (k : string) (v : json) (d : list (string * json))
  : list (string * json) :=
  match d with
  | [] => [(k, v)]
  | (k', v') :: d' =>
      if String.eqb k k' then (k, v) :: d' else (k', v') :: dict_set k v d'
  end.

Definition is_JStr (s : string) (v : json) : bool :=
  match v with JStr s' => String.eqb s s' | _ => false end.

Definition is_substring (s t : string) : bool :=
  match String.index 0 s t with Some _ => true | None => false end.

(** [k in v] for a string [k]. *)
Definition py_contains (k : string) (v : json) : result bool :=
  match v with
  | JDict d => Return (match dict_get k d with Some _ => true | None => false end)
  | JList l => Return (existsb (is_JStr k) l)
  | JStr s => Return (is_substring k s)
  | JNone | JBool _ | JInt _ => Raise TypeError
  end.

(** [v[k]] for a string [k]. *)
Definition py_getitem (v : json) (k : string) : result json :=
  match v with
  | JDict d =>
      match dict_get k d with Some x => Return x | None => Raise (KeyError k) end
  | _ => Raise TypeError
  end.

(** [bool(v)]. *)
Definition py_bool (v : json) : bool :=
  match v with
  | JNone => false
  | JBool b => b
  | JInt z => negb (Z.eqb z 0)
  | JStr s => negb (String.eqb s "")
  | JList l => match l with [] => false | _ => true end
  | JDict d => match d with [] => false | _ => true end
  end.

Fixpoint chars (s : string) : list json :=
  match s with
  | EmptyString => []
  | String c s' => JStr (String c EmptyString) :: chars s'
  end.

(** [for x in v]: the elements a loop over [v] visits. *)
Definition py_iter (v : json) : result (list json) :=
  match v with
  | JList l => Return l
  | JDict d => Return (map (fun kv => JStr (fst kv)) d)
  | JStr s => Return (chars s)
  | JNone | JBool _ | JInt _ => Raise TypeError
  end.

(** *** [int(s)] on a string: blanks around an optionally signed, non-empty
    run of decimal digits. *)

Definition is_space (c : ascii) : bool :=
  let n := nat_of_ascii c in
  (Nat.eqb n 32 || (Nat.leb 9 n && Nat.leb n 13))%bool.

Definition digit_of (c : ascii) : option Z :=
  let n := nat_of_ascii c in
  if (Nat.leb 48 n && Nat.leb n 57)%bool then Some (Z.of_nat n - 48) else None.

Fixpoint lstrip (s : string) : string :=
  match s with
  | String c s' => if is_space c then lstrip s' else s
  | EmptyString => EmptyString
  end.

Fixpoint rstrip (s : string) : string :=
  match s with
  | String c s' =>
      match rstrip s' with
      | EmptyString => if is_space c then EmptyString else String c EmptyString
      | r => String c r
      end
  | EmptyString => EmptyString
  end.

(** [s.strip()]. *)
Definition strip (s : string) : string := rstrip (lstrip s).

(** *** [u.strip()] on a unicode string

    The white space of unicode strings, among the code points below 256:
    the blanks of byte strings, the separators U+001C to U+001F, the next
    line U+0085 and the no-break space U+00A0. *)

Definition is_unicode_space (c : ascii) : bool :=
  let n := nat_of_ascii c in
  (Nat.eqb n 32 || (Nat.leb 9 n && Nat.leb n 13) || (Nat.leb 28 n && Nat.leb n 31)
   || Nat.eqb n 133 || Nat.eqb n 160)%bool.

Fixpoint unicode_lstrip (s : string) : string :=
  match s with
  | String c s' => if is_unicode_space c then unicode_lstrip s' else s
  | EmptyString => EmptyString
  end.

Fixpoint unicode_rstrip (s : string) : string :=
  match s with
  | String c s' =>
      match unicode_rstrip s' with
      | EmptyString =>
          if is_unicode_space c then EmptyString else String c EmptyString
      | r => String c r
      end
  | EmptyString => EmptyString
  end.

Definition unicode_strip (s : string) : string :=
  unicode_rstrip (unicode_lstrip s).

Fixpoint digits (acc : Z) (s : string) : option Z :=
  match s with
  | EmptyString => Some acc
  | String c s' =>
      match digit_of c with
      | Some d => digits (10 * acc + d) s'
      | None => None
      end
  end.

Definition unsigned (s : string) : option Z :=
  match s with
  | EmptyString => None
  | _ => digits 0 s
  end.

Definition py_int (s : string) : result Z :=
  let parsed :=
    match strip s with
    | String "+" s' => unsigned s'
    | String "-" s' => Z.opp <$> unsigned s'
    | s' => unsigned s'
    end in
  match parsed with
  | Some z => Return z
  | None => Raise ValueError
  end.

(** ** Requests, the compute API and the handler monad *)

(** [req.environ['nova.context']]. *)
Record RequestContext : Type := { is_admin : bool }.

(** The request: [req.str_GET] is read through its mapping interface only
    ([update] takes one value per key), [req.body] is the raw body,
    [req.application_url] the base of the hyperlinks. *)
Record Request : Type := {
  str_GET : gmap string string;
  nova_context : RequestContext;
  req_body : string;
  application_url : string
}.

(** The operations of [self.compute_api] the controller invokes, with
    their arguments. *)
Module compute_api.
Inductive call : Type :=
  | get_all (context : RequestContext) (search_opts : gmap string value)
  | update (context : RequestContext) (id : string) (kwargs : list (string * json))
  | delete (context : RequestContext) (id : string)
  | reboot (context : RequestContext) (id : string)
  | resize (context : RequestContext) (id : string) (flavor_id : option json)
  | confirm_resize (context : RequestContext) (id : string)
  | revert_resize (context : RequestContext) (id : string)
  | rebuild (context : RequestContext) (id : string) (image : json) (more : list json)
  | set_admin_password (context : RequestContext) (id : string) (password : json)
  | lock (context : RequestContext) (id : string)
  | unlock (context : RequestContext) (id : string)
  | get_lock (context : RequestContext) (id : string)
  | reset_network (context : RequestContext) (id : string)
  | inject_network_info (context : RequestContext) (id : string)
  | pause (context : RequestContext) (id : string)
  | unpause (context : RequestContext) (id : string)
  | suspend (context : RequestContext) (id : string)
  | resume (context : RequestContext) (id : string)
  | rescue (context : RequestContext) (id : string)
  | unrescue (context : RequestContext) (id : string)
  | get_ajax_console (context : RequestContext) (id : Z)
  | get_vnc_console (context : RequestContext) (id : Z).
End compute_api.

(** The log of the calls made to the compute API, oldest first. *)
Abbreviation log := (list compute_api.call).

Definition M (A : Type) : Type := log -> result A * log.

#[global] Instance M_ret : MRet M := fun A a l => (Return a, l).

#[global] Instance M_bind : MBind M := fun A B f m l =>
  match m l with
  | (Return a, l') => f a l'
  | (Raise e, l') => (Raise e, l')
  end.

Definition raise {A : Type} (e : exn) : M A := fun l => (Raise e, l).

(** A pure computation that may raise. *)
Definition lift {A : Type} (r : result A) : M A := fun l => (r, l).

(** [try: m  except ...: h e]: the handler answers [None] for an exception
    no clause matches, which is then raised again. *)
Definition try_except {A : Type} (m : M A) (h : exn -> option (M A)) : M A :=
  fun l =>
    match m l with
    | (Return a, l') => (Return a, l')
    | (Raise e, l') =>
        match h e with
        | Some k => k l'
        | None => (Raise e, l')
        end
    end.

(** [[f x for x in xs]] with [f] effectful. *)
Fixpoint for_each {A B : Type} (f : A -> M B) (xs : list A) : M (list B) :=
  match xs with
  | [] => mret []
  | x :: xs' => y ← f x; ys ← for_each f xs'; mret (y :: ys)
  end.

(** The two protocol generations [create_resource] instantiates:
    ['1.0'] is [ControllerV10], ['1.1'] is [ControllerV11]. *)
Inductive version : Type := V10 | V11.

(** The names the dictionary [actions] of [Controller.action] binds, in
    the order of the source text. *)
Definition action_names : list string :=
  ["changePassword"; "reboot"; "resize"; "confirmResize"; "revertResize";
   "rebuild"; "migrate"].

(** What the controller uses and this file does not define: the process
    flag, the compute API, and helpers of other modules.  [actions_keys]
    is the order in which [actions.keys()] lists the dictionary, which
    Python leaves to the hash table. *)
Class Collaborators : Type := {
  FLAGS_allow_admin_api : bool;
  compute_api_answer : log -> compute_api.call -> result json;
  states_from_status : value -> list Z;
  bool_from_str : value -> bool;
  get_id_from_href : json -> result json;
  limited : json -> Request -> result json;
  limited_by_marker : json -> Request -> result json;
  ViewBuilderV10_build : json -> bool -> result json;
  ViewBuilderV11_build : string -> json -> bool -> result json;
  _validate_server_name : json -> result unit;
  b64decode : json -> result json;
  str_exn : exn -> string;
  body_serialize : json -> string;
  actions_keys : list string;
  actions_keys_perm : Permutation actions_keys action_names
}.

Section Servers.
Context `{Collaborators}.

(** A call to the compute API: logged, then answered. *)
Definition invoke (c : compute_api.call) : M json :=
  fun l => (compute_api_answer l c, l ++ [c]).

(** Modelled from the spec: [nova.scheduler.api.redirect_handler] is not
    among the sources.  The redirect concern intercepts the wrong-region
    condition ([RedirectResult]) and answers with the results found
    elsewhere; anything else passes through. *)
Definition redirect_handler (f : M retval) : M retval :=
  try_except f (fun e =>
    match e with
    | RedirectResult results => Some (mret (RValue results))
    | _ => None
    end).

(** [str(v)] of a search-option value, for the messages. *)
Definition str_value (v : value) : string :=
  match v with
  | VStr s => s
  | VBool b => if b then "True" else "False"
  | VInt z => pretty z
  | VStates l => "[" +:+ String.concat ", " (map pretty l) +:+ "]"
  end.

(** [int(v)] of a search-option value. *)
Definition int_value (v : value) : result Z :=
  match v with
  | VStr s => py_int s
  | VBool b => Return (if b then 1 else 0)
  | VInt z => Return z
  | VStates _ => Raise TypeError
  end.

(** ** The option sanitizer

    The dictionary is changed in place, so the function answers with its
    outcome and with the dictionary as it leaves it. *)
Definition check_admin_search_options (context : RequestContext)
    (search_options : gmap string value) (admin_api_options : list string)
  : result unit * gmap string value :=
  if negb FLAGS_allow_admin_api then
    (Return tt,
     foldl (fun opts option => delete option opts) search_options admin_api_options)
  else if is_admin context then
    (Return tt, search_options)
  else
    let spec_admin_opts :=
      filter (fun opt => opt ∈ admin_api_options) (map_to_list search_options).*1 in
    match spec_admin_opts with
    | [] => (Return tt, search_options)
    | _ :: _ => (Raise AdminRequired, search_options)
    end.

(** The methods a subclass overrides, looked up through [self]. *)
Record Methods : Type := {
  self_build_view : Request -> json -> bool -> M json;
  self_limit_items : json -> Request -> M json;
  self_parse_update : RequestContext -> string -> json -> list (string * json) -> M unit;
  self_action_change_password : json -> Request -> string -> M retval;
  self_action_resize : json -> Request -> string -> M retval;
  self_action_rebuild : json -> Request -> string -> M retval;
  self_delete : Request -> string -> M retval
}.

(** [outer in d and inner in d[outer]], left to right. *)
Definition has_argument (outer inner : string) (d : json) : result bool :=
  match py_contains outer d with
  | Return true =>
      match py_getitem d outer with
      | Return sub => py_contains inner sub
      | Raise e => Raise e
      end
  | r => r
  end.

(** [d[outer][inner]]. *)
Definition argument (outer inner : string) (d : json) : result json :=
  match py_getitem d outer with
  | Return sub => py_getitem sub inner
  | Raise e => Raise e
  end.

End Servers.

(** ** class Controller *)

Module Controller.
Section Controller.
Context `{Collaborators}.

Definition _build_view (req : Request) (instance : json) (is_detail : bool)
  : M json := raise NotImplementedError.

Definition _limit_items (items : json) (req : Request) : M json :=
  raise NotImplementedError.

Definition _action_rebuild (info : json) (request : Request) (instance_id : string)
  : M retval := raise NotImplementedError.

Definition _servers_search (self : Methods) (context : RequestContext)
    (req : Request) (is_detail : bool) (search_opts : gmap string value)
  : M json :=
  let status := search_opts !! "status" in
  let search_opts := delete "status" search_opts in
  search_opts ←
    match status with
    | Some status =>
        let search_opts := <["state" := VStates (states_from_status status)]> search_opts in
        if Nat.eqb (List.length (states_from_status status)) 0 then
          let reason := "Invalid server status: " +:+ str_value status in
          raise (InvalidInput reason)
        else mret search_opts
    | None => mret search_opts
    end;
  let search_opts := delete "changes-since" search_opts in
  let search_opts := delete "fresh" search_opts in
  instance_list ← invoke (compute_api.get_all context search_opts);
  limited_list ← self_limit_items self instance_list req;
  insts ← lift (py_iter limited_list);
  servers ← for_each (fun inst =>
               view ← self_build_view self req inst is_detail;
               lift (py_getitem view "server")) insts;
  mret (JDict [("servers", JList servers)]).

Definition _servers_from_request (self : Methods) (req : Request)
    (is_detail : bool) : M json :=
  let search_opts : gmap string value := VStr <$> str_GET req in
  let admin_api := ["ip"; "ip6"; "instance_name"] in
  let context := nova_context req in
  search_opts ←
    match check_admin_search_options context search_opts admin_api with
    | (Return _, search_opts) => mret search_opts
    | (Raise e, search_opts) =>
        if is_AdminRequired e
        then raise (HTTPException (exc.HTTPForbidden (str_exn e)))
        else raise e
    end;
  let search_opts :=
    <["recurse_zones" :=
        VBool (bool_from_str (default (VBool false) (search_opts !! "recurse_zones")))]>
      search_opts in
  search_opts ←
    match search_opts !! "flavor" with
    | Some flavor =>
        n ← lift (int_value flavor);
        mret (<["flavor" := VInt n]> search_opts)
    | None => mret search_opts
    end;
  _servers_search self context req is_detail search_opts.

Definition index (self : Methods) (req : Request) : M retval :=
  try_except
    (servers ← _servers_from_request self req false; mret (RValue servers))
    (fun err =>
       if is_Invalid err
       then Some (mret (RResponse (exc.HTTPBadRequest (str_exn err))))
       else if is_NotFound err
       then Some (mret (RResponse exc.HTTPNotFound))
       else None).

Definition detail (self : Methods) (req : Request) : M retval :=
  try_except
    (servers ← _servers_from_request self req true; mret (RValue servers))
    (fun err =>
       if is_Invalid err
       then Some (mret (RResponse (exc.HTTPBadRequest (str_exn err))))
       else if is_NotFound err
       then Some (mret (RResponse exc.HTTPNotFound))
       else None).

Definition _parse_update (context : RequestContext) (id : string)
    (inst_dict : json) (update_dict : list (string * json)) : M unit :=
  mret tt.

(** [name.strip()]: a method of strings; the strings of a parsed body
    are unicode strings. *)
Definition name_strip (name : json) : result json :=
  match name with
  | JStr s => Return (JStr (unicode_strip s))
  | _ => Raise AttributeError
  end.

Definition update (self : Methods) (req : Request) (id : string) (body : json)
  : M retval :=
  redirect_handler (
    if Nat.eqb (String.length (req_body req)) 0
    then raise (HTTPException exc.HTTPUnprocessableEntity)
    else if negb (py_bool body)
    then raise (HTTPException exc.HTTPUnprocessableEntity)
    else
      let ctxt := nova_context req in
      let update_dict : list (string * json) := [] in
      server ← lift (py_getitem body "server");
      has_name ← lift (py_contains "name" server);
      update_dict ←
        (if has_name : bool then
           name ← lift (argument "server" "name" body);
           _ ← lift (_validate_server_name name);
           stripped ← lift (name_strip name);
           mret (dict_set "display_name" stripped update_dict)
         else mret update_dict);
      _ ← self_parse_update self ctxt id body update_dict;
      _ ← try_except
            (_ ← invoke (compute_api.update ctxt id update_dict); mret tt)
            (fun e =>
               if is_NotFound e
               then Some (raise (HTTPException exc.HTTPNotFound))
               else None);
      mret (RResponse exc.HTTPNoContent)).

Definition _action_change_password (input_dict : json) (req : Request)
    (id : string) : M retval :=
  mret (RResponse exc.HTTPNotImplemented).

Definition _action_confirm_resize (input_dict : json) (req : Request)
    (id : string) : M retval :=
  _ ← try_except
        (_ ← invoke (compute_api.confirm_resize (nova_context req) id); mret tt)
        (fun e => Some (raise (HTTPException (exc.HTTPBadRequest ""))));
  mret (RResponse exc.HTTPNoContent).

Definition _action_revert_resize (input_dict : json) (req : Request)
    (id : string) : M retval :=
  _ ← try_except
        (_ ← invoke (compute_api.revert_resize (nova_context req) id); mret tt)
        (fun e => Some (raise (HTTPException (exc.HTTPBadRequest ""))));
  mret (RResponse (webob.Response 202)).

Definition _action_resize (input_dict : json) (req : Request) (id : string)
  : M retval :=
  mret (RResponse exc.HTTPNotImplemented).

Definition _action_reboot (input_dict : json) (req : Request) (id : string)
  : M retval :=
  has_type ← lift (has_argument "reboot" "type" input_dict);
  reboot_type ←
    (if has_type : bool
     then lift (argument "reboot" "type" input_dict)
     else raise (HTTPException exc.HTTPUnprocessableEntity));
  _ ← try_except
        (_ ← invoke (compute_api.reboot (nova_context req) id); mret tt)
        (fun e => Some (raise (HTTPException exc.HTTPUnprocessableEntity)));
  mret (RResponse (webob.Response 202)).

Definition _action_migrate (input_dict : json) (req : Request) (id : string)
  : M retval :=
  _ ← try_except
        (_ ← invoke (compute_api.resize (nova_context req) id None); mret tt)
        (fun e => Some (raise (HTTPException (exc.HTTPBadRequest ""))));
  mret (RResponse (webob.Response 202)).

(** The dictionary [actions] of [action]. *)
Definition actions (self : Methods)
  : list (string * (json -> Request -> string -> M retval)) :=
  [("changePassword", self_action_change_password self);
   ("reboot", _action_reboot);
   ("resize", self_action_resize self);
   ("confirmResize", _action_confirm_resize);
   ("revertResize", _action_revert_resize);
   ("rebuild", self_action_rebuild self);
   ("migrate", _action_migrate)].

Fixpoint actions_get {A : Type} (key : string) (d : list (string * A)) : option A :=
  match d with
  | [] => None
  | (k, h) :: d' => if String.eqb key k then Some h else actions_get key d'
  end.

(** The loop [for key in actions.keys()] of [action], over the keys still
    to visit. *)
Fixpoint action_loop (self : Methods) (keys : list string) (req : Request)
    (id : string) (body : json) : M retval :=
  match keys with
  | [] => raise (HTTPException exc.HTTPNotImplemented)
  | key :: keys' =>
      found ← lift (py_contains key body);
      if found : bool then
        match actions_get key (actions self) with
        | Some handler => handler body req id
        | None => raise (KeyError key)
        end
      else action_loop self keys' req id body
  end.

Definition action (self : Methods) (req : Request) (id : string) (body : json)
  : M retval :=
  redirect_handler (action_loop self actions_keys req id body).

(** *** The administrative handlers

    Each one guards its call with a bare [except:] clause. *)

Definition lock (req : Request) (id : string) : M retval :=
  redirect_handler (
    let context := nova_context req in
    _ ← try_except
          (_ ← invoke (compute_api.lock context id); mret tt)
          (fun _ => Some (raise (HTTPException exc.HTTPUnprocessableEntity)));
    mret (RResponse (webob.Response 202))).

Definition unlock (req : Request) (id : string) : M retval :=
  redirect_handler (
    let context := nova_context req in
    _ ← try_except
          (_ ← invoke (compute_api.unlock context id); mret tt)
          (fun _ => Some (raise (HTTPException exc.HTTPUnprocessableEntity)));
    mret (RResponse (webob.Response 202))).

Definition get_lock (req : Request) (id : string) : M retval :=
  redirect_handler (
    let context := nova_context req in
    _ ← try_except
          (_ ← invoke (compute_api.get_lock context id); mret tt)
          (fun _ => Some (raise (HTTPException exc.HTTPUnprocessableEntity)));
    mret (RResponse (webob.Response 202))).

Definition reset_network (req : Request) (id : string) (body : json) : M retval :=
  redirect_handler (
    let context := nova_context req in
    _ ← try_except
          (_ ← invoke (compute_api.reset_network context id); mret tt)
          (fun _ => Some (raise (HTTPException exc.HTTPUnprocessableEntity)));
    mret (RResponse (webob.Response 202))).

Definition inject_network_info (req : Request) (id : string) (body : json) : M retval :=
  redirect_handler (
    let context := nova_context req in
    _ ← try_except
          (_ ← invoke (compute_api.inject_network_info context id); mret tt)
          (fun _ => Some (raise (HTTPException exc.HTTPUnprocessableEntity)));
    mret (RResponse (webob.Response 202))).

Definition pause (req : Request) (id : string) (body : json) : M retval :=
  redirect_handler (
    let context := nova_context req in
    _ ← try_except
          (_ ← invoke (compute_api.pause context id); mret tt)
          (fun _ => Some (raise (HTTPException exc.HTTPUnprocessableEntity)));
    mret (RResponse (webob.Response 202))).

Definition unpause (req : Request) (id : string) (body : json) : M retval :=
  redirect_handler (
    let context := nova_context req in
    _ ← try_except
          (_ ← invoke (compute_api.unpause context id); mret tt)
          (fun _ => Some (raise (HTTPException exc.HTTPUnprocessableEntity)));
    mret (RResponse (webob.Response 202))).

Definition suspend (req : Request) (id : string) (body : json) : M retval :=
  redirect_handler (
    let context := nova_context req in
    _ ← try_except
          (_ ← invoke (compute_api.suspend context id); mret tt)
          (fun _ => Some (raise (HTTPException exc.HTTPUnprocessableEntity)));
    mret (RResponse (webob.Response 202))).

Definition resume (req : Request) (id : string) (body : json) : M retval :=
  redirect_handler (
    let context := nova_context req in
    _ ← try_except
          (_ ← invoke (compute_api.resume context id); mret tt)
          (fun _ => Some (raise (HTTPException exc.HTTPUnprocessableEntity)));
    mret (RResponse (webob.Response 202))).

Definition rescue (req : Request) (id : string) : M retval :=
  redirect_handler (
    let context := nova_context req in
    _ ← try_except
          (_ ← invoke (compute_api.rescue context id); mret tt)
          (fun _ => Some (raise (HTTPException exc.HTTPUnprocessableEntity)));
    mret (RResponse (webob.Response 202))).

Definition unrescue (req : Request) (id : string) : M retval :=
  redirect_handler (
    let context := nova_context req in
    _ ← try_except
          (_ ← invoke (compute_api.unrescue context id); mret tt)
          (fun _ => Some (raise (HTTPException exc.HTTPUnprocessableEntity)));
    mret (RResponse (webob.Response 202))).

Definition get_ajax_console (req : Request) (id : string) : M retval :=
  redirect_handler (
    _ ← try_except
          (n ← lift (py_int id);
           _ ← invoke (compute_api.get_ajax_console (nova_context req) n); mret tt)
          (fun e =>
             if is_NotFound e
             then Some (raise (HTTPException exc.HTTPNotFound))
             else None);
    mret (RResponse (webob.Response 202))).

Definition get_vnc_console (req : Request) (id : string) : M retval :=
  redirect_handler (
    _ ← try_except
          (n ← lift (py_int id);
           _ ← invoke (compute_api.get_vnc_console (nova_context req) n); mret tt)
          (fun e =>
             if is_NotFound e
             then Some (raise (HTTPException exc.HTTPNotFound))
             else None);
    mret (RResponse (webob.Response 202))).

End Controller.
End Controller.

(** ** class ControllerV10 *)

Module ControllerV10.
Section ControllerV10.
Context `{Collaborators}.

Definition delete (req : Request) (id : string) : M retval :=
  redirect_handler (
    _ ← try_except
          (_ ← invoke (compute_api.delete (nova_context req) id); mret tt)
          (fun e =>
             if is_NotFound e
             then Some (raise (HTTPException exc.HTTPNotFound))
             else None);
    mret (RResponse (webob.Response 202))).

Definition _build_view (req : Request) (instance : json) (is_detail : bool)
  : M json := lift (ViewBuilderV10_build instance is_detail).

Definition _limit_items (items : json) (req : Request) : M json :=
  lift (limited items req).

Definition _parse_update (context : RequestContext) (server_id : string)
    (inst_dict : json) (update_dict : list (string * json)) : M unit :=
  has_pass ← lift (match py_getitem inst_dict "server" with
                   | Return server => py_contains "adminPass" server
                   | Raise e => Raise e
                   end);
  if has_pass : bool then
    password ← lift (argument "server" "adminPass" inst_dict);
    _ ← invoke (compute_api.set_admin_password context server_id password);
    mret tt
  else mret tt.

Definition _action_resize (input_dict : json) (req : Request) (id : string)
  : M retval :=
  has_flavor ← lift (has_argument "resize" "flavorId" input_dict);
  _ ← (if has_flavor : bool then
         flavor_id ← lift (argument "resize" "flavorId" input_dict);
         _ ← invoke (compute_api.resize (nova_context req) id (Some flavor_id));
         mret tt
       else raise (HTTPException exc.HTTPUnprocessableEntity));
  mret (RResponse (webob.Response 202)).

Definition _action_rebuild (info : json) (request : Request)
    (instance_id : string) : M retval :=
  let context := nova_context request in
  image_id ←
    try_except (lift (argument "rebuild" "imageId" info))
      (fun e =>
         if is_KeyError_or_TypeError e
         then Some (raise (HTTPException
                 (exc.HTTPBadRequest "Could not parse imageId from request.")))
         else None);
  _ ← try_except
        (_ ← invoke (compute_api.rebuild context instance_id image_id []); mret tt)
        (fun e =>
           if is_BuildInProgress e
           then Some (raise (HTTPException (exc.HTTPConflict
                   ("Instance " +:+ instance_id +:+ " is currently being rebuilt."))))
           else None);
  mret (RResponse (webob.Response 202)).

Definition self : Methods := {|
  self_build_view := _build_view;
  self_limit_items := _limit_items;
  self_parse_update := _parse_update;
  self_action_change_password := Controller._action_change_password;
  self_action_resize := _action_resize;
  self_action_rebuild := _action_rebuild;
  self_delete := delete
|}.

End ControllerV10.
End ControllerV10.

(** ** class ControllerV11 *)

Module ControllerV11.
Section ControllerV11.
Context `{Collaborators}.

(** The method ends without a [return]: it answers [None]. *)
Definition delete (req : Request) (id : string) : M retval :=
  redirect_handler (
    _ ← try_except
          (_ ← invoke (compute_api.delete (nova_context req) id); mret tt)
          (fun e =>
             if is_NotFound e
             then Some (raise (HTTPException exc.HTTPNotFound))
             else None);
    mret (RValue JNone)).

Definition _build_view (req : Request) (instance : json) (is_detail : bool)
  : M json :=
  let base_url := application_url req in
  lift (ViewBuilderV11_build base_url instance is_detail).

Definition is_basestring (v : json) : bool :=
  match v with JStr _ => true | _ => false end.

Definition _action_change_password (input_dict : json) (req : Request)
    (id : string) : M retval :=
  let context := nova_context req in
  has_pass ← lift (has_argument "changePassword" "adminPass" input_dict);
  if negb has_pass then
    mret (RResponse (exc.HTTPBadRequest "No adminPass was specified"))
  else
    password ← lift (argument "changePassword" "adminPass" input_dict);
    if (negb (is_basestring password) || is_JStr "" password)%bool then
      mret (RResponse (exc.HTTPBadRequest "Invalid adminPass"))
    else
      _ ← invoke (compute_api.set_admin_password context id password);
      mret (RResponse (webob.Response 202)).

Definition _limit_items (items : json) (req : Request) : M json :=
  lift (limited_by_marker items req).

(** [metadata.iteritems()] exists on dictionaries only. *)
Definition _validate_metadata (metadata : json) : M unit :=
  match metadata with
  | JDict _ => mret tt
  | _ => raise (HTTPException
           (exc.HTTPBadRequest "Unable to parse metadata key/value pairs."))
  end.

(** [personality[key]] inside the first [try] of the loop. *)
Definition personality_field (personality : json) (key : string) : M json :=
  try_except (lift (py_getitem personality key))
    (fun e =>
       if is_KeyError_or_TypeError e
       then Some (raise (HTTPException
               (exc.HTTPBadRequest "Unable to parse personality path/contents.")))
       else None).

(** One turn of the loop of [_decode_personalities]: the personality with
    its contents decoded in place. *)
Definition decode_personality (personality : json) : M json :=
  path ← personality_field personality "path";
  contents ← personality_field personality "contents";
  decoded ←
    try_except (lift (b64decode contents))
      (fun e =>
         match e with
         | TypeError =>
             Some (raise (HTTPException (exc.HTTPBadRequest
                     "Personality content could not be Base64 decoded.")))
         | _ => None
         end);
  match personality with
  | JDict d => mret (JDict (dict_set "contents" decoded d))
  | _ => raise TypeError
  end.

(** The loop changes the personalities in place; what it leaves is what
    the caller passes on.  A list holds the changed dictionaries; a loop
    over anything else cannot pass its first turn. *)
Definition _decode_personalities (personalities : json) : M json :=
  items ← lift (py_iter personalities);
  decoded ← for_each decode_personality items;
  match personalities with
  | JList _ => mret (JList decoded)
  | _ => mret personalities
  end.

Definition _action_resize (input_dict : json) (req : Request) (id : string)
  : M retval :=
  _ ← try_except
        (has_flavor ← lift (has_argument "resize" "flavorRef" input_dict);
         if has_flavor : bool then
           flavor_ref ← lift (argument "resize" "flavorRef" input_dict);
           flavor_id ← lift (get_id_from_href flavor_ref);
           _ ← invoke (compute_api.resize (nova_context req) id (Some flavor_id));
           mret tt
         else raise (HTTPException exc.HTTPUnprocessableEntity))
        (fun e => Some (raise (HTTPException (exc.HTTPBadRequest ""))));
  mret (RResponse (webob.Response 202)).

(** [d.get(key, default)] on the dictionary [info["rebuild"]]. *)
Definition dict_get_default (d : json) (key : string) (dflt : json) : result json :=
  match d with
  | JDict d => Return (default dflt (dict_get key d))
  | _ => Raise AttributeError
  end.

Definition _action_rebuild (info : json) (request : Request)
    (instance_id : string) : M retval :=
  let context := nova_context request in
  image_href ←
    try_except (lift (argument "rebuild" "imageRef" info))
      (fun e =>
         if is_KeyError_or_TypeError e
         then Some (raise (HTTPException
                 (exc.HTTPBadRequest "Could not parse imageRef from request.")))
         else None);
  rebuild ← lift (py_getitem info "rebuild");
  personalities ← lift (dict_get_default rebuild "personality" (JList []));
  metadata ← lift (dict_get_default rebuild "metadata" JNone);
  name ← lift (dict_get_default rebuild "name" JNone);
  _ ← (if py_bool metadata then _validate_metadata metadata else mret tt);
  personalities ← _decode_personalities personalities;
  _ ← try_except
        (_ ← invoke (compute_api.rebuild context instance_id image_href
                       [name; metadata; personalities]);
         mret tt)
        (fun e =>
           if is_BuildInProgress e
           then Some (raise (HTTPException (exc.HTTPConflict
                   ("Instance " +:+ instance_id +:+ " is currently being rebuilt."))))
           else None);
  mret (RResponse (webob.Response 202)).

Definition self : Methods := {|
  self_build_view := _build_view;
  self_limit_items := _limit_items;
  self_parse_update := Controller._parse_update;
  self_action_change_password := _action_change_password;
  self_action_resize := _action_resize;
  self_action_rebuild := _action_rebuild;
  self_delete := delete
|}.

End ControllerV11.
End ControllerV11.

(** ** class HeadersSerializer, create_resource *)

Module HeadersSerializer.
Definition delete (response : Response) (data : json) : Response :=
  {| status_int := 204; body := body response |}.
End HeadersSerializer.

Section Resource.
Context `{Collaborators}.

(** The controller [create_resource] instantiates for a version. *)
Definition create_resource (v : version) : Methods :=
  match v with
  | V10 => ControllerV10.self
  | V11 => ControllerV11.self
  end.

(** Modelled from the spec: the resource wrapper and the response
    serializer of [nova.api.openstack.wsgi] are not among the sources.
    A response the handler built itself is sent as it is; a value left to
    the serializer gets a fresh response, on which the headers
    serializer's step for the action runs, and a body only when there is
    data to serialize. *)
Definition serialize_delete (result : retval) : Response :=
  match result with
  | RResponse response => response
  | RValue data =>
      let response := HeadersSerializer.delete (webob.Response 200) data in
      match data with
      | JNone => response
      | _ => {| status_int := status_int response; body := body_serialize data |}
      end
  end.

(** Modelled from the spec: a DELETE request through the resource of a
    version, which calls the [delete] method of its controller and hands
    the result to the serializer; the wrapper itself is not among the
    sources. *)
Definition Resource_delete (v : version) (req : Request) (id : string)
  : M Response :=
  result ← self_delete (create_resource v) req id;
  mret (serialize_delete result).

End Resource.

(** ** The administrative handlers and their operations

    The handlers that guard their call with a bare [except:] clause, each
    with the operation of the compute API it forwards to; and the two
    console handlers, which catch [NotFound] only. *)

Definition guarded_handlers `{Collaborators}
  : list ((Request -> string -> json -> M retval)
          * (RequestContext -> string -> compute_api.call)) :=
  [(fun req id _ => Controller.lock req id, compute_api.lock);
   (fun req id _ => Controller.unlock req id, compute_api.unlock);
   (fun req id _ => Controller.get_lock req id, compute_api.get_lock);
   (Controller.reset_network, compute_api.reset_network);
   (Controller.inject_network_info, compute_api.inject_network_info);
   (Controller.pause, compute_api.pause);
   (Controller.unpause, compute_api.unpause);
   (Controller.suspend, compute_api.suspend);
   (Controller.resume, compute_api.resume);
   (fun req id _ => Controller.rescue req id, compute_api.rescue);
   (fun req id _ => Controller.unrescue req id, compute_api.unrescue)].

Definition console_handlers `{Collaborators}
  : list ((Request -> string -> M retval)
          * (RequestContext -> Z -> compute_api.call)) :=
  [(Controller.get_ajax_console, compute_api.get_ajax_console);
   (Controller.get_vnc_console, compute_api.get_vnc_console)].

(** ** Sample collaborators

    A compute API that knows the instance ["1"] only, a two-entry status
    table, and helpers following their docstrings; used to run the
    handlers on concrete requests. *)

Definition sample_id (c : compute_api.call) : option string :=
  match c with
  | compute_api.get_all _ _ => None
  | compute_api.update _ id _ | compute_api.delete _ id | compute_api.reboot _ id
  | compute_api.resize _ id _ | compute_api.confirm_resize _ id
  | compute_api.revert_resize _ id | compute_api.rebuild _ id _ _
  | compute_api.set_admin_password _ id _ | compute_api.lock _ id
  | compute_api.unlock _ id | compute_api.get_lock _ id
  | compute_api.reset_network _ id | compute_api.inject_network_info _ id
  | compute_api.pause _ id | compute_api.unpause _ id | compute_api.suspend _ id
  | compute_api.resume _ id | compute_api.rescue _ id | compute_api.unrescue _ id =>
      Some id
  | compute_api.get_ajax_console _ n | compute_api.get_vnc_console _ n =>
      Some (pretty n)
  end.

Definition sample_answer (l : log) (c : compute_api.call) : result json :=
  match sample_id c with
  | None => Return (JList [])
  | Some id =>
      if String.eqb id "1" then Return JNone
      else if String.eqb id "2" then Raise (Error "ComputeError")
      else Raise NotFound
  end.

Definition sample_states (status : value) : list Z :=
  match status with
  | VStr "ACTIVE" => [1]
  | VStr "BUILD" => [0; 9]
  | _ => []
  end.

Definition sample_bool (v : value) : bool :=
  match v with
  | VStr s => (String.eqb s "true" || String.eqb s "True" || String.eqb s "1")%bool
  | VBool b => b
  | VInt z => negb (Z.eqb z 0)
  | VStates l => match l with [] => false | _ => true end
  end.

Definition sample_str (e : exn) : string :=
  match e with
  | AdminRequired => "User does not have admin privileges"
  | InvalidInput reason => "Invalid input received: " +:+ reason
  | _ => ""
  end.

Definition sample : Collaborators := {|
  FLAGS_allow_admin_api := true;
  compute_api_answer := sample_answer;
  states_from_status := sample_states;
  bool_from_str := sample_bool;
  get_id_from_href := fun href => Return href;
  limited := fun items _ => Return items;
  limited_by_marker := fun items _ => Return items;
  ViewBuilderV10_build := fun inst _ => Return (JDict [("server", inst)]);
  ViewBuilderV11_build := fun _ inst _ => Return (JDict [("server", inst)]);
  _validate_server_name := fun _ => Return tt;
  b64decode := fun contents => Return contents;
  str_exn := sample_str;
  body_serialize := fun _ => "";
  actions_keys := action_names;
  actions_keys_perm := Permutation_refl action_names
|}.

(** The same, with the administrative API switched off. *)
Definition sample_off : Collaborators := {|
  FLAGS_allow_admin_api := false;
  compute_api_answer := sample_answer;
  states_from_status := sample_states;
  bool_from_str := sample_bool;
  get_id_from_href := fun href => Return href;
  limited := fun items _ => Return items;
  limited_by_marker := fun items _ => Return items;
  ViewBuilderV10_build := fun inst _ => Return (JDict [("server", inst)]);
  ViewBuilderV11_build := fun _ inst _ => Return (JDict [("server", inst)]);
  _validate_server_name := fun _ => Return tt;
  b64decode := fun contents => Return contents;
  str_exn := sample_str;
  body_serialize := fun _ => "";
  actions_keys := rev action_names;
  actions_keys_perm := Permutation_sym (Permutation_rev action_names)
|}.

Definition sample_request (query : list (string * string)) (admin : bool) : Request := {|
  str_GET := list_to_map query;
  nova_context := {| is_admin := admin |};
  req_body := "";
  application_url := "http://localhost/v1.1"
|}.

(** A compute API that finds nothing: every call raises [NotFound]. *)
Definition sample_raising : Collaborators := {|
  FLAGS_allow_admin_api := true;
  compute_api_answer := fun _ _ => Raise NotFound;
  states_from_status := sample_states;
  bool_from_str := sample_bool;
  get_id_from_href := fun href => Return href;
  limited := fun items _ => Return items;
  limited_by_marker := fun items _ => Return items;
  ViewBuilderV10_build := fun inst _ => Return (JDict [("server", inst)]);
  ViewBuilderV11_build := fun _ inst _ => Return (JDict [("server", inst)]);
  _validate_server_name := fun _ => Return tt;
  b64decode := fun contents => Return contents;
  str_exn := sample_str;
  body_serialize := fun _ => "";
  actions_keys := action_names;
  actions_keys_perm := Permutation_refl action_names
|}.

(** A compute API with two instances, whose listing answers with both. *)
Definition sample_two : Collaborators := {|
  FLAGS_allow_admin_api := true;
  compute_api_answer := fun _ _ =>
    Return (JList [JDict [("id", JInt 1)]; JDict [("id", JInt 2)]]);
  states_from_status := sample_states;
  bool_from_str := sample_bool;
  get_id_from_href := fun href => Return href;
  limited := fun items _ => Return items;
  limited_by_marker := fun items _ => Return items;
  ViewBuilderV10_build := fun inst _ => Return (JDict [("server", inst)]);
  ViewBuilderV11_build := fun _ inst _ => Return (JDict [("server", inst)]);
  _validate_server_name := fun name =>
    match name with
    | JStr "" => Raise (HTTPException (exc.HTTPBadRequest "Server name is an empty string"))
    | JStr _ => Return tt
    | _ => Raise (HTTPException (exc.HTTPBadRequest "Server name is not a string or unicode"))
    end;
  b64decode := fun contents =>
    match contents with
    | JStr "aGVsbG8=" => Return (JStr "hello")
    | _ => Raise TypeError
    end;
  str_exn := sample_str;
  body_serialize := fun _ => "";
  actions_keys := action_names;
  actions_keys_perm := Permutation_refl action_names
|}.

(** * Vocabulary of the properties *)

(** [appends n m]: running [m] adds at most [n] calls to the log. *)
Definition appends {A : Type} (n : nat) (m : M A) : Prop :=
  ∀ l : log, ∃ calls : log, (m l).2 = l ++ calls ∧ (List.length calls ≤ n)%nat.

(** The calls [_servers_search] makes, given the search options it
    receives: none for a status without a state, one [get_all] otherwise. *)
Definition search_calls `{Collaborators} (context : RequestContext)
    (so : gmap string value) : log :=
  match so !! "status" with
  | Some status =>
      match states_from_status status with
      | [] => []
      | _ :: _ =>
          [compute_api.get_all context
             (delete "fresh" (delete "changes-since"
                (<["state" := VStates (states_from_status status)]>
                   (delete "status" so))))]
      end
  | None =>
      [compute_api.get_all context
         (delete "fresh" (delete "changes-since" (delete "status" so)))]
  end.

(** The search options after the two coercions of
    [_servers_from_request], or the exception [int] raises. *)
Definition coerced `{Collaborators} (so : gmap string value)
  : result (gmap string value) :=
  let so :=
    <["recurse_zones" :=
        VBool (bool_from_str (default (VBool false) (so !! "recurse_zones")))]> so in
  match so !! "flavor" with
  | Some flavor =>
      match int_value flavor with
      | Return n => Return (<["flavor" := VInt n]> so)
      | Raise e => Raise e
      end
  | None => Return so
  end.

Definition admin_api : list string := ["ip"; "ip6"; "instance_name"].

(** The calls a listing request makes. *)
Definition request_calls `{Collaborators} (req : Request) : log :=
  match check_admin_search_options (nova_context req) (VStr <$> str_GET req)
          admin_api with
  | (Return _, so) =>
      match coerced so with
      | Return so' => search_calls (nova_context req) so'
      | Raise _ => []
      end
  | (Raise _, _) => []
  end.

(** The request with the administrative options taken out of its query. *)
Definition without_admin_options (req : Request) : Request := {|
  str_GET := foldl (fun q option => delete option q) (str_GET req) admin_api;
  nova_context := nova_context req;
  req_body := req_body req;
  application_url := application_url req
|}.

(** The clauses [except exception.Invalid] and [except exception.NotFound]
    of [index] and [detail], applied to an outcome. *)
Definition listing_outcome `{Collaborators} (r : result json * log)
  : result retval * log :=
  match r with
  | (Return servers, l) => (Return (RValue servers), l)
  | (Raise err, l) =>
      if is_Invalid err
      then (Return (RResponse (exc.HTTPBadRequest (str_exn err))), l)
      else if is_NotFound err
      then (Return (RResponse exc.HTTPNotFound), l)
      else (Raise err, l)
  end.

(** The requests the sanitizer lets through. *)
Definition passes_sanitizer `{Collaborators} (req : Request) : Prop :=
  FLAGS_allow_admin_api = false ∨ is_admin (nova_context req) = true ∨
  (∀ opt, opt ∈ admin_api → str_GET req !! opt = None).

(** [emits P n m]: running [m] adds at most [n] calls to the log, all of
    them satisfying [P]. *)
Definition emits {A : Type} (P : compute_api.call -> Prop) (n : nat) (m : M A)
  : Prop :=
  ∀ l : log, ∃ calls : log,
    (m l).2 = l ++ calls ∧ (List.length calls ≤ n)%nat ∧ Forall P calls.

(** A personality the loop of [_decode_personalities] can decode, and
    one it answers 400 for. *)
Definition decodable `{Collaborators} (p : json) : Prop :=
  ∃ path contents bytes,
    py_getitem p "path" = Return path
    ∧ py_getitem p "contents" = Return contents
    ∧ b64decode contents = Return bytes.

Definition malformed `{Collaborators} (p : json) : Prop :=
  (∃ e, py_getitem p "path" = Raise e)
  ∨ (∃ e, py_getitem p "contents" = Raise e)
  ∨ (∃ contents, py_getitem p "contents" = Return contents
                 ∧ b64decode contents = Raise TypeError).

(** * Properties *)

(** ** The operators on concrete values *)

Example py_int_blanks : py_int " 12 " = Return 12%Z.
Proof. reflexivity. Qed.

Example py_int_signed : py_int "-7" = Return (-7)%Z.
Proof. reflexivity. Qed.

Example py_int_letters : py_int "m1.tiny" = Raise ValueError.
Proof. reflexivity. Qed.

Example py_int_sign_only : py_int "+" = Raise ValueError.
Proof. reflexivity. Qed.

Example contains_none : py_contains "type" JNone = Raise TypeError.
Proof. reflexivity. Qed.

Example contains_substring : py_contains "type" (JStr "my type") = Return true.
Proof. reflexivity. Qed.

Example has_argument_empty :
  has_argument "reboot" "type" (JDict [("reboot", JDict [])]) = Return false.
Proof. reflexivity. Qed.

Example strip_both_ends : strip "  web 1 " = "web 1".
Proof. reflexivity. Qed.

Example unicode_strip_blanks : unicode_strip "  web 1 " = "web 1".
Proof. reflexivity. Qed.

Example unicode_strip_separator :
  unicode_strip (String "031" ("web" +:+ String "160" "")) = "web"
  ∧ strip (String "031" "web") = String "031" "web".
Proof. split; reflexivity. Qed.

(** ** How many calls a computation adds to the log *)

Section Appends.
Context `{Collaborators}.

Lemma appends_mono {A} (n k : nat) (m : M A) :
  (n ≤ k)%nat → appends n m → appends k m.
Proof.
  intros Hle Hm l. destruct (Hm l) as (calls & Heq & Hlen).
  exists calls. split; [done | lia].
Qed.

Lemma appends_ret {A} (a : A) : appends 0 (mret a : M A).
Proof. intros l. exists []. by rewrite app_nil_r. Qed.

Lemma appends_raise {A} (e : exn) : appends 0 (raise e : M A).
Proof. intros l. exists []. by rewrite app_nil_r. Qed.

Lemma appends_lift {A} (r : result A) : appends 0 (lift r).
Proof. intros l. exists []. by rewrite app_nil_r. Qed.

Lemma appends_invoke (c : compute_api.call) : appends 1 (invoke c).
Proof. intros l. exists [c]. done. Qed.

Lemma appends_bind {A B} (n k : nat) (m : M A) (f : A → M B) :
  appends n m → (∀ a, appends k (f a)) → appends (n + k) (m ≫= f).
Proof.
  intros Hm Hf l. unfold mbind, M_bind.
  destruct (Hm l) as (c1 & Heq1 & Hlen1).
  destruct (m l) as [[a | e] l1] eqn:Hrun; simpl in Heq1; subst l1.
  - destruct (Hf a (l ++ c1)) as (c2 & Heq2 & Hlen2).
    exists (c1 ++ c2). rewrite Heq2, length_app, app_assoc. split; [done | lia].
  - exists c1. split; [done | lia].
Qed.

Lemma appends_try {A} (n k : nat) (m : M A) (h : exn → option (M A)) :
  appends n m → (∀ e k', h e = Some k' → appends k k') →
  appends (n + k) (try_except m h).
Proof.
  intros Hm Hh l. unfold try_except.
  destruct (Hm l) as (c1 & Heq1 & Hlen1).
  destruct (m l) as [[a | e] l1] eqn:Hrun; simpl in Heq1; subst l1.
  - exists c1. split; [done | lia].
  - destruct (h e) as [k' |] eqn:He.
    + destruct (Hh e k' He (l ++ c1)) as (c2 & Heq2 & Hlen2).
      exists (c1 ++ c2). rewrite Heq2, length_app, app_assoc. split; [done | lia].
    + exists c1. split; [done | lia].
Qed.

Lemma appends_for_each {A B} (f : A → M B) (xs : list A) :
  (∀ x, appends 0 (f x)) → appends 0 (for_each f xs).
Proof.
  intros Hf. induction xs as [| x xs IH]; simpl.
  - apply appends_ret.
  - apply (appends_bind 0 0); [apply Hf |]. intros y.
    apply (appends_bind 0 0); [apply IH |]. intros ys. apply appends_ret.
Qed.

Lemma appends_redirect (n : nat) (f : M retval) :
  appends n f → appends n (redirect_handler f).
Proof.
  intros Hf. unfold redirect_handler.
  apply (appends_mono (n + 0)); [lia |].
  apply appends_try; [done |].
  intros e k' He. destruct e; inversion He; subst. apply appends_ret.
Qed.

Lemma appends_0 {A} (m : M A) (l : log) : appends 0 m → (m l).2 = l.
Proof.
  intros Hm. destruct (Hm l) as (calls & Heq & Hlen).
  destruct calls; [by rewrite app_nil_r in Heq | simpl in Hlen; lia].
Qed.

End Appends.

(** ** The option sanitizer *)

Section Sanitizer.
Context `{Collaborators}.

Lemma strip_lookup {V : Type} (opts : list string) (so : gmap string V)
    (k : string) :
  foldl (fun o option => delete option o) so opts !! k =
  if decide (k ∈ opts) then None else so !! k.
Proof.
  revert so. induction opts as [| o opts IH]; intros so; simpl.
  - destruct (decide (k ∈ [])) as [Hin | _]; [| done].
    by apply not_elem_of_nil in Hin.
  - rewrite IH.
    destruct (decide (k ∈ opts)) as [Hin | Hnin];
      destruct (decide (k ∈ o :: opts)) as [Hin' | Hnin']; try done.
    + exfalso. apply Hnin'. by right.
    + apply elem_of_cons in Hin' as [-> | Hin']; [| done].
      apply lookup_delete_eq.
    + apply lookup_delete_ne. intros ->. apply Hnin'. by left.
Qed.

Lemma strip_twice (opts : list string) (q : gmap string string) :
  foldl (fun (o : gmap string value) option => delete option o)
    (VStr <$> foldl (fun (o : gmap string string) option => delete option o) q opts)
    opts
  = foldl (fun (o : gmap string value) option => delete option o) (VStr <$> q) opts.
Proof.
  apply map_eq. intros k. rewrite !strip_lookup, lookup_fmap, strip_lookup.
  destruct (decide (k ∈ opts)); [done |]. by rewrite lookup_fmap.
Qed.

Lemma sanitizer_disabled (context : RequestContext) (so : gmap string value)
    (opts : list string) :
  FLAGS_allow_admin_api = false →
  check_admin_search_options context so opts =
    (Return tt, foldl (fun o option => delete option o) so opts).
Proof. intros Hoff. unfold check_admin_search_options. by rewrite Hoff. Qed.

Lemma sanitizer_rejects (context : RequestContext) (so : gmap string value)
    (opts : list string) (opt : string) :
  FLAGS_allow_admin_api = true → is_admin context = false →
  opt ∈ opts → is_Some (so !! opt) →
  check_admin_search_options context so opts = (Raise AdminRequired, so).
Proof.
  intros Hon Hadm Hin [v Hv]. unfold check_admin_search_options.
  rewrite Hon, Hadm. simpl.
  destruct (filter _ _) as [| o os] eqn:Hf; [| done].
  assert (opt ∈ filter (fun o => o ∈ opts) (map_to_list so).*1) as Hmem.
  { apply list_elem_of_filter. split; [done |].
    apply list_elem_of_fmap. exists (opt, v). split; [done |].
    by apply elem_of_map_to_list. }
  rewrite Hf in Hmem. by apply not_elem_of_nil in Hmem.
Qed.

Lemma sanitizer_keeps_others (context : RequestContext)
    (so : gmap string value) (opts : list string) (k : string) :
  k ∉ opts → (check_admin_search_options context so opts).2 !! k = so !! k.
Proof.
  intros Hk. unfold check_admin_search_options.
  destruct FLAGS_allow_admin_api; simpl.
  - destruct (is_admin context); [done |]. by destruct (filter _ _).
  - rewrite strip_lookup. by destruct (decide (k ∈ opts)).
Qed.

(** The sanitizer lets a request through when the administrative API is
    off, when the caller is an administrator, or when no administrative
    option is present. *)
Lemma sanitizer_accepts (context : RequestContext) (so : gmap string value)
    (opts : list string) :
  FLAGS_allow_admin_api = false ∨ is_admin context = true ∨
    (∀ opt, opt ∈ opts → so !! opt = None) →
  (check_admin_search_options context so opts).1 = Return tt.
Proof.
  intros Hpass. unfold check_admin_search_options.
  destruct FLAGS_allow_admin_api; [| done]. simpl.
  destruct (is_admin context); [done |].
  destruct Hpass as [Hoff | [Hadm | Hnone]]; [done | done |].
  destruct (filter _ _) as [| o os] eqn:Hf; [done |].
  assert (o ∈ filter (fun o => o ∈ opts) (map_to_list so).*1) as Hmem
    by (rewrite Hf; by left).
  apply list_elem_of_filter in Hmem as [Ho Hkey].
  apply list_elem_of_fmap in Hkey as ([k v] & -> & Hkv).
  apply elem_of_map_to_list in Hkv. simpl in Ho.
  rewrite (Hnone k Ho) in Hkv. done.
Qed.

End Sanitizer.

(** ** The listing pipeline *)

Section Listing.
Context `{Collaborators}.

Lemma servers_search_invalid (self : Methods) (context : RequestContext)
    (req : Request) (is_detail : bool) (so : gmap string value) (l : log)
    (status : value) :
  so !! "status" = Some status → states_from_status status = [] →
  Controller._servers_search self context req is_detail so l =
    (Raise (InvalidInput ("Invalid server status: " +:+ str_value status)), l).
Proof.
  intros Hst Hnone. unfold Controller._servers_search.
  rewrite Hst, Hnone. reflexivity.
Qed.

Lemma limit_items_silent (v : version) (items : json) (req : Request) :
  appends 0 (self_limit_items (create_resource v) items req).
Proof. destruct v; apply appends_lift. Qed.

Lemma build_view_silent (v : version) (req : Request) (inst : json) (d : bool) :
  appends 0 (self_build_view (create_resource v) req inst d).
Proof. destruct v; apply appends_lift. Qed.

Lemma servers_search_log (v : version) (context : RequestContext)
    (req : Request) (is_detail : bool) (so : gmap string value) (l : log) :
  (Controller._servers_search (create_resource v) context req is_detail so l).2 =
    l ++ search_calls context so.
Proof.
  assert (∀ so' : gmap string value,
    ((instance_list ← invoke (compute_api.get_all context so');
      limited_list ← self_limit_items (create_resource v) instance_list req;
      insts ← lift (py_iter limited_list);
      servers ← for_each (fun inst =>
                   view ← self_build_view (create_resource v) req inst is_detail;
                   lift (py_getitem view "server")) insts;
      mret (JDict [("servers", JList servers)])) l).2 =
    l ++ [compute_api.get_all context so']) as Hrest.
  { intros so'. unfold mbind at 1, M_bind at 1, invoke at 1.
    destruct (compute_api_answer l _) as [instance_list | e]; [| done].
    apply appends_0.
    apply (appends_bind 0 0); [apply limit_items_silent |]. intros limited_list.
    apply (appends_bind 0 0); [apply appends_lift |]. intros insts.
    apply (appends_bind 0 0); [| intros; apply appends_ret].
    apply appends_for_each. intros inst.
    apply (appends_bind 0 0); [apply build_view_silent |].
    intros view. apply appends_lift. }
  unfold Controller._servers_search, search_calls.
  destruct (so !! "status") as [status |] eqn:Hst.
  - destruct (states_from_status status) as [| s ss] eqn:Hstates.
    + simpl. by rewrite app_nil_r.
    + unfold mbind at 1, M_bind at 1. simpl. rewrite <- Hstates. apply Hrest.
  - unfold mbind at 1, M_bind at 1. simpl. apply Hrest.
Qed.

Lemma admin_api_cases (opt : string) :
  opt ∈ admin_api → opt = "ip" ∨ opt = "ip6" ∨ opt = "instance_name".
Proof.
  unfold admin_api. rewrite !elem_of_cons. intros [? | [? | [? | Hnil]]]; auto.
  by apply not_elem_of_nil in Hnil.
Qed.

Lemma coerced_lookup (so so' : gmap string value) (k : string) :
  coerced so = Return so' → k ≠ "recurse_zones" → k ≠ "flavor" →
  so' !! k = so !! k.
Proof.
  intros Hco Hrz Hfl. unfold coerced in Hco.
  destruct (_ !! "flavor") as [flavor |].
  - destruct (int_value flavor) as [n |]; [| done].
    injection Hco as <-. by rewrite !lookup_insert_ne.
  - injection Hco as <-. by rewrite lookup_insert_ne.
Qed.

Lemma search_calls_lookup (context context' : RequestContext)
    (so so' : gmap string value) (k : string) :
  compute_api.get_all context' so' ∈ search_calls context so →
  k ≠ "state" → k ≠ "status" → k ≠ "changes-since" → k ≠ "fresh" →
  so' !! k = so !! k.
Proof.
  intros Hcall Hs1 Hs2 Hs3 Hs4. unfold search_calls in Hcall.
  destruct (so !! "status") as [status |].
  - destruct (states_from_status status) as [| s ss] eqn:Hstates;
      [by apply not_elem_of_nil in Hcall |].
    apply list_elem_of_singleton in Hcall. injection Hcall as _ ->.
    rewrite !lookup_delete_ne by done. rewrite lookup_insert_ne by done.
    by rewrite lookup_delete_ne.
  - apply list_elem_of_singleton in Hcall. injection Hcall as _ ->.
    by rewrite !lookup_delete_ne.
Qed.

Lemma servers_from_request_run (self : Methods) (req : Request)
    (is_detail : bool) (l : log) :
  Controller._servers_from_request self req is_detail l =
    match check_admin_search_options (nova_context req) (VStr <$> str_GET req)
            admin_api with
    | (Return _, so) =>
        match coerced so with
        | Return so' =>
            Controller._servers_search self (nova_context req) req is_detail so' l
        | Raise e => (Raise e, l)
        end
    | (Raise e, _) =>
        (Raise (if is_AdminRequired e
                then HTTPException (exc.HTTPForbidden (str_exn e)) else e), l)
    end.
Proof.
  unfold Controller._servers_from_request, coerced. fold admin_api.
  destruct (check_admin_search_options _ _ _) as [[[] | e] so].
  - unfold mbind at 1, M_bind at 1. simpl.
    destruct (_ !! "flavor") as [flavor |]; [| done].
    unfold mbind, M_bind, lift. by destruct (int_value flavor).
  - unfold mbind at 1, M_bind at 1. by destruct (is_AdminRequired e).
Qed.

Lemma index_run (self : Methods) (req : Request) (l : log) :
  Controller.index self req l =
    listing_outcome (Controller._servers_from_request self req false l).
Proof.
  unfold Controller.index, try_except, listing_outcome, mbind, M_bind.
  destruct (Controller._servers_from_request self req false l) as [[s | e] l'];
    [done |].
  destruct (is_Invalid e); [done |]. by destruct (is_NotFound e).
Qed.

Lemma detail_run (self : Methods) (req : Request) (l : log) :
  Controller.detail self req l =
    listing_outcome (Controller._servers_from_request self req true l).
Proof.
  unfold Controller.detail, try_except, listing_outcome, mbind, M_bind.
  destruct (Controller._servers_from_request self req true l) as [[s | e] l'];
    [done |].
  destruct (is_Invalid e); [done |]. by destruct (is_NotFound e).
Qed.

Lemma listing_outcome_log (r : result json * log) : (listing_outcome r).2 = r.2.
Proof.
  destruct r as [[s | e] l]; [done |]. simpl.
  destruct (is_Invalid e); [done |]. by destruct (is_NotFound e).
Qed.

Lemma servers_from_request_log (v : version) (req : Request)
    (is_detail : bool) (l : log) :
  (Controller._servers_from_request (create_resource v) req is_detail l).2 =
    l ++ request_calls req.
Proof.
  rewrite servers_from_request_run. unfold request_calls.
  destruct (check_admin_search_options _ _ _) as [[[] | e] so]; simpl.
  - destruct (coerced so) as [so' | e]; simpl.
    + apply servers_search_log.
    + by rewrite app_nil_r.
  - by rewrite app_nil_r.
Qed.

End Listing.

(** ** Administrative options in a listing request *)

(** C1.  While the administrative API is enabled, a listing request of a
    caller who is not an administrator, with one of [ip], [ip6] and
    [instance_name] among its search options, fails: the sanitizer raises
    [AdminRequired] and leaves the search options as it found them, and
    [index] and [detail] end with [HTTPForbidden], status 403, with the
    log of calls to the compute API unchanged, so [get_all] is not
    invoked. *)
Theorem admin_option_forbidden `{Collaborators} (self : Methods)
    (req : Request) (opt : string) (l : log) :
  FLAGS_allow_admin_api = true →
  is_admin (nova_context req) = false →
  opt ∈ admin_api →
  is_Some (str_GET req !! opt) →
  check_admin_search_options (nova_context req) (VStr <$> str_GET req) admin_api
    = (Raise AdminRequired, VStr <$> str_GET req)
  ∧ Controller.index self req l
    = (Raise (HTTPException (exc.HTTPForbidden (str_exn AdminRequired))), l)
  ∧ Controller.detail self req l
    = (Raise (HTTPException (exc.HTTPForbidden (str_exn AdminRequired))), l)
  ∧ status_int (exc.HTTPForbidden (str_exn AdminRequired)) = 403.
Proof.
  intros Hon Hadm Hopt [q Hq].
  assert (check_admin_search_options (nova_context req) (VStr <$> str_GET req)
            admin_api = (Raise AdminRequired, VStr <$> str_GET req)) as Hgate.
  { apply (sanitizer_rejects _ _ _ opt); try done.
    rewrite lookup_fmap, Hq. by eexists. }
  split; [done |].
  rewrite index_run, detail_run, !servers_from_request_run, Hgate.
  by repeat split.
Qed.

Lemma admin_option_forbidden_witness :
  @Controller.index sample (@ControllerV11.self sample)
    (sample_request [("ip", "10.0.0.7")] false) []
  = (Raise (HTTPException (exc.HTTPForbidden (@str_exn sample AdminRequired))), []).
Proof.
  apply (@admin_option_forbidden sample (@ControllerV11.self sample)
           (sample_request [("ip", "10.0.0.7")] false) "ip" []).
  - reflexivity.
  - reflexivity.
  - unfold admin_api. by left.
  - eexists. vm_compute. reflexivity.
Defined.

(** C2.  While the administrative API is disabled, for every caller, the
    sanitizer removes [ip], [ip6] and [instance_name] from the search
    options and raises nothing; the calls a listing request makes to the
    compute API, with the search options given to [get_all], are those of
    the same request without these options in its query; and no search
    options given to [get_all] hold one of them. *)
Theorem admin_options_stripped `{Collaborators} (v : version)
    (req : Request) (l : log) :
  FLAGS_allow_admin_api = false →
  (∀ (context : RequestContext) (so : gmap string value),
     check_admin_search_options context so admin_api
       = (Return tt, delete "instance_name" (delete "ip6" (delete "ip" so))))
  ∧ (Controller.index (create_resource v) req l).2
    = (Controller.index (create_resource v) (without_admin_options req) l).2
  ∧ (Controller.detail (create_resource v) req l).2
    = (Controller.detail (create_resource v) (without_admin_options req) l).2
  ∧ (∃ calls : log,
       (Controller.index (create_resource v) req l).2 = l ++ calls
       ∧ (Controller.detail (create_resource v) req l).2 = l ++ calls
       ∧ ∀ context so opt, compute_api.get_all context so ∈ calls →
           opt ∈ admin_api → so !! opt = None).
Proof.
  intros Hoff.
  assert (∀ (V : Type) (m : gmap string V),
            foldl (fun o option => delete option o) m admin_api
            = delete "instance_name" (delete "ip6" (delete "ip" m))) as Hfold
    by done.
  assert (request_calls req = request_calls (without_admin_options req)) as Hsame.
  { unfold request_calls. rewrite !sanitizer_disabled by done. simpl.
    pose proof (strip_twice admin_api (str_GET req)) as Htwice.
    simpl in Htwice. by rewrite Htwice. }
  split; [intros context so; by rewrite sanitizer_disabled, Hfold |].
  rewrite !index_run, !detail_run, !listing_outcome_log, !servers_from_request_log.
  split; [by rewrite Hsame |]. split; [by rewrite Hsame |].
  exists (request_calls req). split; [done |]. split; [done |].
  intros context so opt Hcall Hopt.
  unfold request_calls in Hcall. rewrite sanitizer_disabled in Hcall by done.
  destruct (coerced _) as [so' |] eqn:Hco; [| by apply not_elem_of_nil in Hcall].
  assert (foldl (fun (o : gmap string value) option => delete option o)
            (VStr <$> str_GET req) admin_api !! opt = None) as Hgone.
  { rewrite strip_lookup. by rewrite decide_True. }
  apply admin_api_cases in Hopt as [-> | [-> | ->]].
  all: rewrite (search_calls_lookup _ _ _ _ _ Hcall) by done.
  all: by rewrite (coerced_lookup _ _ _ Hco).
Qed.

Lemma admin_options_stripped_witness :
  @FLAGS_allow_admin_api sample_off = false
  ∧ (@Controller.index sample_off (@create_resource sample_off V10)
       (sample_request [("ip", "10.0.0.7"); ("flavor", "3")] false) []).2
    = (@Controller.index sample_off (@create_resource sample_off V10)
         (without_admin_options
            (sample_request [("ip", "10.0.0.7"); ("flavor", "3")] false)) []).2.
Proof.
  split; [reflexivity |].
  apply (@admin_options_stripped sample_off V10
           (sample_request [("ip", "10.0.0.7"); ("flavor", "3")] false) []).
  reflexivity.
Defined.

(** ** The coercions of a listing request *)

Section Coercions.
Context `{Collaborators}.

Lemma sanitizer_passed (req : Request) :
  passes_sanitizer req →
  ∃ so, check_admin_search_options (nova_context req) (VStr <$> str_GET req)
          admin_api = (Return tt, so)
        ∧ ∀ k, k ∉ admin_api → so !! k = VStr <$> (str_GET req !! k).
Proof.
  intros Hpass.
  pose proof (sanitizer_accepts (nova_context req) (VStr <$> str_GET req)
                admin_api) as Hacc.
  pose proof (sanitizer_keeps_others (nova_context req) (VStr <$> str_GET req)
                admin_api) as Hkeep.
  destruct (check_admin_search_options _ _ _) as [r so]. simpl in *.
  exists so. split.
  - rewrite Hacc; [done |].
    destruct Hpass as [? | [? | Hnone]]; [by left | by right; left |].
    right; right. intros opt Hopt. by rewrite lookup_fmap, (Hnone opt Hopt).
  - intros k Hk. by rewrite Hkeep, lookup_fmap.
Qed.

Lemma not_admin_option (k : string) :
  k ≠ "ip" → k ≠ "ip6" → k ≠ "instance_name" → k ∉ admin_api.
Proof. intros ? ? ? Hin. apply admin_api_cases in Hin. tauto. Qed.

Lemma coerced_numeric (so : gmap string value) :
  (∀ flavor, so !! "flavor" = Some (VStr flavor) → ∃ n, py_int flavor = Return n) →
  (so !! "flavor" = None ∨ ∃ flavor, so !! "flavor" = Some (VStr flavor)) →
  ∃ so', coerced so = Return so'.
Proof.
  intros Hnum Hshape. unfold coerced.
  rewrite lookup_insert_ne by done.
  destruct Hshape as [-> | [flavor Hfl]]; [by eexists |].
  rewrite Hfl. destruct (Hnum flavor Hfl) as [n Hn]. simpl. rewrite Hn.
  by eexists.
Qed.

End Coercions.

(** C7 (as amended).  For every listing request whose query holds a
    [status] option, that the sanitizer lets through and whose [flavor]
    option, if any, is numeric: a status with no power state in the table
    makes [index] and [detail] answer [HTTPBadRequest], status 400, built
    from the [InvalidInput] error, with no call to the compute API; a
    status with at least one makes them call [get_all] once, with search
    options where [state] holds the states of the table and [status] is
    gone. *)
Theorem status_translated `{Collaborators} (v : version) (req : Request)
    (status : string) (l : log) :
  str_GET req !! "status" = Some status →
  passes_sanitizer req →
  (∀ flavor, str_GET req !! "flavor" = Some flavor → ∃ n, py_int flavor = Return n) →
  (states_from_status (VStr status) = [] →
     let answer := exc.HTTPBadRequest
                     (str_exn (InvalidInput ("Invalid server status: " +:+ status))) in
     Controller.index (create_resource v) req l = (Return (RResponse answer), l)
     ∧ Controller.detail (create_resource v) req l = (Return (RResponse answer), l)
     ∧ status_int answer = 400)
  ∧ (states_from_status (VStr status) ≠ [] →
     ∃ so : gmap string value,
       (Controller.index (create_resource v) req l).2
         = l ++ [compute_api.get_all (nova_context req) so]
       ∧ (Controller.detail (create_resource v) req l).2
         = l ++ [compute_api.get_all (nova_context req) so]
       ∧ so !! "state" = Some (VStates (states_from_status (VStr status)))
       ∧ so !! "status" = None).
Proof.
  intros Hstatus Hpass Hflavor.
  destruct (sanitizer_passed req Hpass) as (so0 & Hgate & Hkeep).
  destruct (coerced_numeric so0) as [so1 Hco].
  { intros flavor Hfl. rewrite Hkeep in Hfl by by apply not_admin_option.
    destruct (str_GET req !! "flavor") as [f |] eqn:Hq; [| done].
    injection Hfl as <-. by apply Hflavor. }
  { rewrite Hkeep by by apply not_admin_option.
    destruct (str_GET req !! "flavor") as [f |]; [right; by eexists | by left]. }
  assert (so1 !! "status" = Some (VStr status)) as Hst.
  { rewrite (coerced_lookup _ _ _ Hco) by done.
    rewrite Hkeep by by apply not_admin_option. by rewrite Hstatus. }
  split.
  - intros Hnone. simpl.
    rewrite index_run, detail_run, !servers_from_request_run, Hgate, Hco.
    rewrite !(servers_search_invalid _ _ _ _ _ _ _ Hst Hnone). by repeat split.
  - intros Hsome.
    rewrite index_run, detail_run, !listing_outcome_log, !servers_from_request_log.
    unfold request_calls, search_calls. rewrite Hgate, Hco, Hst.
    destruct (states_from_status (VStr status)) as [| s ss] eqn:Hstates; [done |].
    eexists. split; [done |]. split; [done |]. split.
    + rewrite !lookup_delete_ne by done. apply lookup_insert_eq.
    + rewrite !lookup_delete_ne by done. rewrite lookup_insert_ne by done.
      apply lookup_delete_eq.
Qed.

Lemma status_translated_witness :
  (@Controller.index sample (@create_resource sample V10)
     (sample_request [("status", "bogus-value")] false) []
   = (Return (RResponse (exc.HTTPBadRequest
        "Invalid input received: Invalid server status: bogus-value")), []))
  ∧ ∃ so : gmap string value,
      (@Controller.index sample (@create_resource sample V10)
         (sample_request [("status", "ACTIVE"); ("flavor", "3")] false) []).2
        = [compute_api.get_all {| is_admin := false |} so]
      ∧ so !! "state" = Some (VStates [1]).
Proof.
  split.
  - apply (@status_translated sample V10
             (sample_request [("status", "bogus-value")] false) "bogus-value" []).
    + reflexivity.
    + right; right. intros opt Hopt.
      apply admin_api_cases in Hopt as [-> | [-> | ->]]; reflexivity.
    + intros flavor Hfl. vm_compute in Hfl. discriminate.
    + reflexivity.
  - destruct (@status_translated sample V10
                (sample_request [("status", "ACTIVE"); ("flavor", "3")] false)
                "ACTIVE" []) as [_ Hsome].
    + reflexivity.
    + right; right. intros opt Hopt.
      apply admin_api_cases in Hopt as [-> | [-> | ->]]; reflexivity.
    + intros flavor Hfl. vm_compute in Hfl. injection Hfl as <-.
      exists 3%Z. reflexivity.
    + destruct Hsome as (so & Hidx & _ & Hstate & _); [discriminate |].
      exists so. split; [exact Hidx | exact Hstate].
Defined.

(** C7, as stated, fails: with the administrative API enabled, a caller
    who is not an administrator asks for [status=bogus-value] together
    with [ip]; the status has no power state, and the answer is the 403 of
    the sanitizer, not 400. *)
Lemma status_translated_counterexample :
  @states_from_status sample (VStr "bogus-value") = []
  ∧ @Controller.index sample (@create_resource sample V10)
      (sample_request [("status", "bogus-value"); ("ip", "10.0.0.7")] false) []
    = (Raise (HTTPException
         (mkResponse 403 "User does not have admin privileges")), [])
  ∧ @Controller.index sample (@create_resource sample V10)
      (sample_request [("status", "bogus-value"); ("ip", "10.0.0.7")] false) []
    ≠ (Return (RResponse (exc.HTTPBadRequest
         "Invalid input received: Invalid server status: bogus-value")), []).
Proof.
  split; [reflexivity |].
  assert (@Controller.index sample (@create_resource sample V10)
            (sample_request [("status", "bogus-value"); ("ip", "10.0.0.7")] false) []
          = (Raise (HTTPException
               (mkResponse 403 "User does not have admin privileges")), []))
    as Hrun by (vm_compute; reflexivity).
  split; [exact Hrun |]. rewrite Hrun. discriminate.
Qed.

(** C9.  For a listing request the sanitizer lets through, whose [flavor]
    option [int] rejects: [index] and [detail] raise the [ValueError] of
    the coercion, which no clause of theirs catches, and make no call to
    the compute API; the claim expects the answer 400. *)
Theorem flavor_not_numeric `{Collaborators} (self : Methods) (req : Request)
    (flavor : string) (l : log) :
  str_GET req !! "flavor" = Some flavor →
  py_int flavor = Raise ValueError →
  passes_sanitizer req →
  Controller.index self req l = (Raise ValueError, l)
  ∧ Controller.detail self req l = (Raise ValueError, l).
Proof.
  intros Hflavor Hint Hpass.
  destruct (sanitizer_passed req Hpass) as (so0 & Hgate & Hkeep).
  assert (coerced so0 = Raise ValueError) as Hco.
  { unfold coerced. rewrite lookup_insert_ne by done.
    rewrite Hkeep by by apply not_admin_option.
    rewrite Hflavor. simpl. by rewrite Hint. }
  rewrite index_run, detail_run, !servers_from_request_run, Hgate, Hco.
  by split.
Qed.

Lemma flavor_not_numeric_witness :
  @Controller.index sample (@create_resource sample V11)
    (sample_request [("flavor", "m1.tiny")] false) []
  = (Raise ValueError, []).
Proof.
  apply (@flavor_not_numeric sample (@create_resource sample V11)
           (sample_request [("flavor", "m1.tiny")] false) "m1.tiny" []).
  - reflexivity.
  - reflexivity.
  - right; right. intros opt Hopt.
    apply admin_api_cases in Hopt as [-> | [-> | ->]]; reflexivity.
Defined.

(** ** The handlers of the action dispatcher *)

Section Arguments.

Lemma argument_present (outer inner : string) (d x : json) :
  argument outer inner d = Return x → has_argument outer inner d = Return true.
Proof.
  unfold argument, has_argument, py_getitem, py_contains.
  destruct d as [| | | | | d]; try done.
  destruct (dict_get outer d) as [sub |]; [| done].
  destruct sub as [| | | | | sub]; try done.
  by destruct (dict_get inner sub).
Qed.

End Arguments.

(** C6.  What the reboot handler does.  When the test for
    [reboot.type] is false it raises [HTTPUnprocessableEntity], status
    422, with no call to the compute API.  When [reboot.type] is there,
    [reboot] is called once: an exception of the call gives 422, an
    answer gives a response with status 202 and no body.  When the test
    itself raises, the exception leaves the handler and no call is made:
    so it is for a body whose [reboot] entry is [None], a boolean or a
    number, which has no [reboot.type] and for which the claim expects
    422; the test [in] raises [TypeError] there. *)
Theorem reboot_handler `{Collaborators} (input_dict : json)
    (req : Request) (id : string) (l : log) :
  (has_argument "reboot" "type" input_dict = Return false →
     Controller._action_reboot input_dict req id l
       = (Raise (HTTPException exc.HTTPUnprocessableEntity), l))
  ∧ (∀ reboot_type, argument "reboot" "type" input_dict = Return reboot_type →
       Controller._action_reboot input_dict req id l
         = (match compute_api_answer l (compute_api.reboot (nova_context req) id) with
            | Return _ => Return (RResponse (webob.Response 202))
            | Raise _ => Raise (HTTPException exc.HTTPUnprocessableEntity)
            end,
            l ++ [compute_api.reboot (nova_context req) id]))
  ∧ (∀ e, has_argument "reboot" "type" input_dict = Raise e →
       Controller._action_reboot input_dict req id l = (Raise e, l))
  ∧ (∀ d v, input_dict = JDict d → dict_get "reboot" d = Some v →
       v = JNone ∨ (∃ b, v = JBool b) ∨ (∃ z, v = JInt z) →
       Controller._action_reboot input_dict req id l = (Raise TypeError, l))
  ∧ status_int exc.HTTPUnprocessableEntity = 422
  ∧ webob.Response 202 = {| status_int := 202; body := "" |}.
Proof.
  assert (∀ e, has_argument "reboot" "type" input_dict = Raise e →
            Controller._action_reboot input_dict req id l = (Raise e, l)) as Hraises.
  { intros e Htest. unfold Controller._action_reboot, mbind, M_bind, lift.
    by rewrite Htest. }
  split; [| split; [| split; [done | split; [| done]]]].
  - intros Hmissing. unfold Controller._action_reboot, mbind, M_bind, lift.
    by rewrite Hmissing.
  - intros reboot_type Harg.
    unfold Controller._action_reboot, mbind, M_bind, lift, try_except, invoke.
    rewrite (argument_present _ _ _ _ Harg), Harg.
    by destruct (compute_api_answer l _).
  - intros d v -> Hget Hshape. apply Hraises.
    unfold has_argument, py_contains, py_getitem. rewrite Hget.
    by destruct Hshape as [-> | [[b ->] | [z ->]]].
Qed.

Lemma reboot_handler_witness :
  (@Controller._action_reboot sample (JDict [("reboot", JNone)])
     (sample_request [] false) "1" []
   = (Raise TypeError, []))
  ∧ (@Controller._action_reboot sample (JDict [("reboot", JDict [])])
       (sample_request [] false) "1" []
     = (Raise (HTTPException exc.HTTPUnprocessableEntity), []))
  ∧ (@Controller._action_reboot sample
       (JDict [("reboot", JDict [("type", JStr "HARD")])])
       (sample_request [] false) "1" []
     = (Return (RResponse (webob.Response 202)),
        [compute_api.reboot {| is_admin := false |} "1"])).
Proof.
  split; [| split].
  - apply (proj1 (proj2 (proj2 (proj2 (@reboot_handler sample
             (JDict [("reboot", JNone)]) (sample_request [] false) "1" []))))
             [("reboot", JNone)] JNone).
    + reflexivity.
    + reflexivity.
    + by left.
  - apply (proj1 (@reboot_handler sample (JDict [("reboot", JDict [])])
             (sample_request [] false) "1" [])).
    reflexivity.
  - apply (proj1 (proj2 (@reboot_handler sample
             (JDict [("reboot", JDict [("type", JStr "HARD")])])
             (sample_request [] false) "1" [])) (JStr "HARD")).
    reflexivity.
Defined.

(** The same body through the dispatcher of either version: the
    [TypeError] is what the request ends with. *)
Example reboot_none_dispatched :
  @Controller.action sample (@create_resource sample V10)
    (sample_request [] false) "1" (JDict [("reboot", JNone)]) []
  = (Raise TypeError, [])
  ∧ @Controller.action sample (@create_resource sample V11)
      (sample_request [] false) "1" (JDict [("reboot", JNone)]) []
    = (Raise TypeError, []).
Proof. split; reflexivity. Qed.

(** C5.  What the two resize handlers do.  Legacy: a failed test for
    [resize.flavorId] raises 422; with the field, [resize] is called once
    and an answer gives 202, while an exception of the call leaves the
    handler as it is.  Current: with [resize.flavorRef], the reference is
    resolved to an id, [resize] is called once with it, an answer gives
    202 and an exception 400; a failed test for the field raises 422
    inside the guarded block, whose [except Exception] clause turns it
    into 400.  The claim expects 422 for the missing field and 400 for
    the exception in both versions. *)
Theorem resize_handlers `{Collaborators} (input_dict : json) (req : Request)
    (id : string) (l : log) :
  (has_argument "resize" "flavorId" input_dict = Return false →
     ControllerV10._action_resize input_dict req id l
       = (Raise (HTTPException exc.HTTPUnprocessableEntity), l))
  ∧ (∀ flavor_id, argument "resize" "flavorId" input_dict = Return flavor_id →
       let call := compute_api.resize (nova_context req) id (Some flavor_id) in
       ControllerV10._action_resize input_dict req id l
         = (match compute_api_answer l call with
            | Return _ => Return (RResponse (webob.Response 202))
            | Raise e => Raise e
            end, l ++ [call]))
  ∧ (has_argument "resize" "flavorRef" input_dict = Return false →
       ControllerV11._action_resize input_dict req id l
         = (Raise (HTTPException (exc.HTTPBadRequest "")), l))
  ∧ (∀ flavor_ref flavor_id,
       argument "resize" "flavorRef" input_dict = Return flavor_ref →
       get_id_from_href flavor_ref = Return flavor_id →
       let call := compute_api.resize (nova_context req) id (Some flavor_id) in
       ControllerV11._action_resize input_dict req id l
         = (match compute_api_answer l call with
            | Return _ => Return (RResponse (webob.Response 202))
            | Raise _ => Raise (HTTPException (exc.HTTPBadRequest ""))
            end, l ++ [call])).
Proof.
  repeat split.
  - intros Hmissing. unfold ControllerV10._action_resize, mbind, M_bind, lift.
    by rewrite Hmissing.
  - intros flavor_id Harg. simpl.
    unfold ControllerV10._action_resize, mbind, M_bind, lift, invoke.
    rewrite (argument_present _ _ _ _ Harg), Harg.
    by destruct (compute_api_answer l _).
  - intros Hmissing.
    unfold ControllerV11._action_resize, mbind, M_bind, lift, try_except.
    by rewrite Hmissing.
  - intros flavor_ref flavor_id Harg Hid. simpl.
    unfold ControllerV11._action_resize, mbind, M_bind, lift, try_except, invoke.
    rewrite (argument_present _ _ _ _ Harg), Harg, Hid.
    by destruct (compute_api_answer l _).
Qed.

Lemma resize_handlers_witness :
  (@ControllerV11._action_resize sample (JDict [("resize", JDict [])])
     (sample_request [] false) "1" []
   = (Raise (HTTPException (exc.HTTPBadRequest "")), []))
  ∧ (@ControllerV10._action_resize sample
       (JDict [("resize", JDict [("flavorId", JInt 3)])])
       (sample_request [] false) "2" []
     = (Raise (Error "ComputeError"),
        [compute_api.resize {| is_admin := false |} "2" (Some (JInt 3))])).
Proof.
  split.
  - apply (@resize_handlers sample (JDict [("resize", JDict [])])
             (sample_request [] false) "1" []).
    reflexivity.
  - apply (proj1 (proj2 (@resize_handlers sample
             (JDict [("resize", JDict [("flavorId", JInt 3)])])
             (sample_request [] false) "2" [])) (JInt 3)).
    reflexivity.
Defined.

(** ** Delete *)

(** C8.  When the compute API answers the [delete] call, the legacy
    handler returns a response with status 202, which the resource sends;
    the current handler returns [None], the headers serializer sets the
    status of the response to 204, and the resource sends 204 with no
    body. *)
Theorem delete_status `{Collaborators} (req : Request) (id : string)
    (l : log) (answer : json) :
  let call := compute_api.delete (nova_context req) id in
  compute_api_answer l call = Return answer →
  ControllerV10.delete req id l = (Return (RResponse (webob.Response 202)), l ++ [call])
  ∧ ControllerV11.delete req id l = (Return (RValue JNone), l ++ [call])
  ∧ (∀ response data, status_int (HeadersSerializer.delete response data) = 204)
  ∧ Resource_delete V10 req id l
    = (Return {| status_int := 202; body := "" |}, l ++ [call])
  ∧ Resource_delete V11 req id l
    = (Return {| status_int := 204; body := "" |}, l ++ [call]).
Proof.
  intros call Hanswer.
  assert (ControllerV10.delete req id l
          = (Return (RResponse (webob.Response 202)), l ++ [call])) as H10.
  { unfold ControllerV10.delete, redirect_handler, try_except, mbind, M_bind, invoke.
    fold call. by rewrite Hanswer. }
  assert (ControllerV11.delete req id l = (Return (RValue JNone), l ++ [call]))
    as H11.
  { unfold ControllerV11.delete, redirect_handler, try_except, mbind, M_bind, invoke.
    fold call. by rewrite Hanswer. }
  split; [done |]. split; [done |]. split; [done |].
  unfold Resource_delete, mbind, M_bind. simpl. by rewrite H10, H11.
Qed.

Lemma delete_status_witness :
  (@Resource_delete sample V10 (sample_request [] false) "1" []).1
    = Return {| status_int := 202; body := "" |}
  ∧ (@Resource_delete sample V11 (sample_request [] false) "1" []).1
    = Return {| status_int := 204; body := "" |}.
Proof.
  destruct (@delete_status sample (sample_request [] false) "1" [] JNone)
    as (_ & _ & _ & H10 & H11); [reflexivity |].
  rewrite H10, H11. split; reflexivity.
Defined.

(** ** Update *)

(** C10.  For an update request with a body, whose parsed body is a
    dictionary that is not empty and has no [server] key, the handler
    raises [KeyError] for [body['server']]; nothing catches it, and the
    compute API is not called.  So an update that ends otherwise, on a
    dictionary that is not empty, has the key. *)
Theorem update_without_server `{Collaborators} (self : Methods) (req : Request)
    (id : string) (d : list (string * json)) (l : log) :
  req_body req ≠ "" → d ≠ [] → dict_get "server" d = None →
  Controller.update self req id (JDict d) l = (Raise (KeyError "server"), l).
Proof.
  intros Hraw Hd Hserver.
  unfold Controller.update, redirect_handler, try_except.
  destruct (req_body req) as [| c raw] eqn:Hbody; [done |].
  destruct d as [| kv d']; [done |].
  unfold mbind, M_bind, lift, py_getitem. simpl String.length. simpl Nat.eqb.
  cbv iota. simpl py_bool. simpl negb. cbv iota.
  by rewrite Hserver.
Qed.

Lemma update_without_server_witness :
  @Controller.update sample (@create_resource sample V10)
    {| str_GET := ∅; nova_context := {| is_admin := false |};
       req_body := "<foo></foo>"; application_url := "" |}
    "1" (JDict [("foo", JDict [])]) []
  = (Raise (KeyError "server"), []).
Proof.
  apply (@update_without_server sample).
  - discriminate.
  - discriminate.
  - reflexivity.
Defined.

(** ** The administrative handlers *)

(** C3 (as amended).  Each of [lock], [unlock], [get_lock],
    [reset_network], [inject_network_info], [pause], [unpause], [suspend],
    [resume], [rescue] and [unrescue] makes one call to the compute API;
    every exception of the call, [NotFound] too, is answered by raising
    [HTTPUnprocessableEntity], status 422, and an answer gives a response
    with status 202 and no body.  [get_ajax_console] and
    [get_vnc_console], for a numeric id, make one call; [NotFound] is
    answered by raising [HTTPNotFound], status 404, and an answer gives
    202 with no body. *)
Theorem admin_handlers `{Collaborators} (req : Request) (id : string)
    (body : json) (l : log) :
  Forall (fun '(handler, operation) =>
      let call := operation (nova_context req) id in
      handler req id body l
        = (match compute_api_answer l call with
           | Return _ => Return (RResponse (webob.Response 202))
           | Raise _ => Raise (HTTPException exc.HTTPUnprocessableEntity)
           end, l ++ [call]))
    guarded_handlers
  ∧ Forall (fun '(handler, operation) =>
      ∀ n, py_int id = Return n →
        let call := operation (nova_context req) n in
        (∀ answer, compute_api_answer l call = Return answer →
           handler req id l = (Return (RResponse (webob.Response 202)), l ++ [call]))
        ∧ (compute_api_answer l call = Raise NotFound →
           handler req id l = (Raise (HTTPException exc.HTTPNotFound), l ++ [call])))
    console_handlers
  ∧ status_int exc.HTTPUnprocessableEntity = 422
  ∧ status_int exc.HTTPNotFound = 404
  ∧ webob.Response 202 = {| status_int := 202; body := "" |}.
Proof.
  split; [| split; [| done]].
  - unfold guarded_handlers.
    repeat match goal with |- Forall _ _ => constructor end.
    all: simpl.
    all: unfold Controller.lock, Controller.unlock, Controller.get_lock,
           Controller.reset_network, Controller.inject_network_info,
           Controller.pause, Controller.unpause, Controller.suspend,
           Controller.resume, Controller.rescue, Controller.unrescue,
           redirect_handler, try_except, mbind, M_bind, invoke.
    all: by destruct (compute_api_answer l _).
  - unfold console_handlers.
    repeat match goal with |- Forall _ _ => constructor end.
    all: intros n Hn; simpl.
    all: unfold Controller.get_ajax_console, Controller.get_vnc_console,
           redirect_handler, try_except, mbind, M_bind, invoke, lift.
    all: rewrite Hn.
    all: split; [intros answer Hanswer; by rewrite Hanswer
                | intros Hanswer; by rewrite Hanswer].
Qed.

Lemma admin_handlers_witness :
  (@Controller.get_vnc_console sample (sample_request [] true) "3" []
   = (Raise (HTTPException exc.HTTPNotFound),
      [compute_api.get_vnc_console {| is_admin := true |} 3]))
  ∧ (@Controller.pause sample (sample_request [] true) "3" JNone []
     = (Raise (HTTPException exc.HTTPUnprocessableEntity),
        [compute_api.pause {| is_admin := true |} "3"])).
Proof.
  destruct (@admin_handlers sample (sample_request [] true) "3" JNone [])
    as (Hguarded & Hconsole & _).
  split.
  - unfold console_handlers in Hconsole.
    apply Forall_cons in Hconsole as [_ Hconsole].
    apply Forall_cons in Hconsole as [Hvnc _].
    apply (Hvnc 3%Z); reflexivity.
  - unfold guarded_handlers in Hguarded.
    do 5 apply Forall_cons in Hguarded as [_ Hguarded].
    apply Forall_cons in Hguarded as [Hpause _].
    exact Hpause.
Defined.

(** C3, as stated, fails for the console handlers: the compute API
    raises an exception other than [NotFound], and [get_vnc_console]
    lets it through instead of answering 422. *)
Lemma admin_handlers_counterexample :
  @compute_api_answer sample []
     (compute_api.get_vnc_console {| is_admin := true |} 2)
   = Raise (Error "ComputeError")
  ∧ @Controller.get_vnc_console sample (sample_request [] true) "2" []
    = (Raise (Error "ComputeError"),
       [compute_api.get_vnc_console {| is_admin := true |} 2])
  ∧ (@Controller.get_vnc_console sample (sample_request [] true) "2" []).1
    ≠ Raise (HTTPException exc.HTTPUnprocessableEntity).
Proof.
  split; [reflexivity |].
  assert (@Controller.get_vnc_console sample (sample_request [] true) "2" []
          = (Raise (Error "ComputeError"),
             [compute_api.get_vnc_console {| is_admin := true |} 2])) as Hrun
    by (vm_compute; reflexivity).
  split; [exact Hrun |]. rewrite Hrun. discriminate.
Qed.

(** ** The action dispatcher *)

(** The clauses of a handler: which exceptions it takes, and what it
    does with them. *)
Ltac clause H :=
  simpl in H; repeat case_match; simplify_eq.

(** Computations that make no call. *)
Ltac silent :=
  repeat first
    [ apply appends_ret
    | apply appends_raise
    | apply appends_lift
    | apply appends_for_each; intros
    | apply (appends_bind 0 0); [| intros]
    | apply (appends_try 0 0); [| let Hh := fresh in intros ? ? Hh; clause Hh]
    | match goal with
      | |- appends _ (if ?b then _ else _) => destruct b
      | |- appends _ (match ?x with _ => _ end) => destruct x
      end ].

(** Computations that make at most one call. *)
Ltac one_call :=
  first
    [ apply appends_invoke
    | apply (appends_mono 0 1); [lia | solve [silent]]
    | apply (appends_bind 0 1); [solve [silent] | intros; one_call]
    | apply (appends_bind 1 0); [one_call | intros; solve [silent]]
    | apply (appends_try 1 0);
        [one_call | let Hh := fresh in intros ? ? Hh; clause Hh; solve [silent]]
    | match goal with
      | |- appends _ (if ?b then _ else _) => destruct b; one_call
      | |- appends _ (match ?x with _ => _ end) => destruct x; one_call
      end ].

Section Dispatcher.
Context `{Collaborators}.

Lemma reboot_one_call input_dict req id :
  appends 1 (Controller._action_reboot input_dict req id).
Proof. unfold Controller._action_reboot. one_call. Qed.

Lemma confirm_resize_one_call input_dict req id :
  appends 1 (Controller._action_confirm_resize input_dict req id).
Proof. unfold Controller._action_confirm_resize. one_call. Qed.

Lemma revert_resize_one_call input_dict req id :
  appends 1 (Controller._action_revert_resize input_dict req id).
Proof. unfold Controller._action_revert_resize. one_call. Qed.

Lemma migrate_one_call input_dict req id :
  appends 1 (Controller._action_migrate input_dict req id).
Proof. unfold Controller._action_migrate. one_call. Qed.

Lemma change_password_one_call v input_dict req id :
  appends 1 (self_action_change_password (create_resource v) input_dict req id).
Proof.
  destruct v; simpl.
  - unfold Controller._action_change_password. one_call.
  - unfold ControllerV11._action_change_password. one_call.
Qed.

Lemma resize_one_call v input_dict req id :
  appends 1 (self_action_resize (create_resource v) input_dict req id).
Proof.
  destruct v; simpl.
  - unfold ControllerV10._action_resize. one_call.
  - unfold ControllerV11._action_resize. one_call.
Qed.

Lemma decode_personalities_silent personalities :
  appends 0 (ControllerV11._decode_personalities personalities).
Proof.
  unfold ControllerV11._decode_personalities.
  apply (appends_bind 0 0); [apply appends_lift |]. intros items.
  apply (appends_bind 0 0).
  - apply appends_for_each. intros personality.
    unfold ControllerV11.decode_personality, ControllerV11.personality_field.
    silent.
  - intros decoded. silent.
Qed.

Lemma rebuild_one_call v info request instance_id :
  appends 1 (self_action_rebuild (create_resource v) info request instance_id).
Proof.
  destruct v; simpl.
  - unfold ControllerV10._action_rebuild. one_call.
  - unfold ControllerV11._action_rebuild.
    apply (appends_bind 0 1); [solve [silent] |]. intros image_href.
    apply (appends_bind 0 1); [solve [silent] |]. intros rebuild.
    apply (appends_bind 0 1); [solve [silent] |]. intros personalities.
    apply (appends_bind 0 1); [solve [silent] |]. intros metadata.
    apply (appends_bind 0 1); [solve [silent] |]. intros name.
    apply (appends_bind 0 1).
    { destruct (py_bool metadata); [| apply appends_ret].
      unfold ControllerV11._validate_metadata. silent. }
    intros _.
    apply (appends_bind 0 1); [apply decode_personalities_silent |].
    intros decoded. one_call.
Qed.

End Dispatcher.

Section Dispatch.
Context `{Collaborators}.

Lemma action_names_cases (key : string) :
  key ∈ action_names →
  key = "changePassword" ∨ key = "reboot" ∨ key = "resize"
  ∨ key = "confirmResize" ∨ key = "revertResize" ∨ key = "rebuild"
  ∨ key = "migrate".
Proof.
  unfold action_names. rewrite !elem_of_cons.
  intros [? | [? | [? | [? | [? | [? | [? | Hnil]]]]]]]; auto 10.
  by apply not_elem_of_nil in Hnil.
Qed.

Lemma actions_bound (self : Methods) (key : string) :
  key ∈ action_names →
  is_Some (Controller.actions_get key (Controller.actions self)).
Proof.
  intros Hkey.
  apply action_names_cases in Hkey as [-> | [-> | [-> | [-> | [-> | [-> | ->]]]]]];
    by eexists.
Qed.

Lemma handler_one_call (v : version) (key : string)
    (handler : json → Request → string → M retval) body req id :
  Controller.actions_get key (Controller.actions (create_resource v)) = Some handler →
  appends 1 (handler body req id).
Proof.
  unfold Controller.actions. simpl Controller.actions_get.
  repeat (destruct (String.eqb key _);
          [intros [= <-];
           first [ apply change_password_one_call | apply reboot_one_call
                 | apply resize_one_call | apply confirm_resize_one_call
                 | apply revert_resize_one_call | apply rebuild_one_call
                 | apply migrate_one_call ] |]).
  done.
Qed.

Lemma action_loop_cons (self : Methods) (key : string) (keys : list string)
    req id body (l : log) :
  Controller.action_loop self (key :: keys) req id body l =
    match py_contains key body with
    | Return true =>
        match Controller.actions_get key (Controller.actions self) with
        | Some handler => handler body req id l
        | None => (Raise (KeyError key), l)
        end
    | Return false => Controller.action_loop self keys req id body l
    | Raise e => (Raise e, l)
    end.
Proof.
  cbn [Controller.action_loop]. unfold mbind, M_bind, lift.
  destruct (py_contains key body) as [[|] | e]; try done.
  by destruct (Controller.actions_get key (Controller.actions self)).
Qed.

(** The loop over the keys: it falls through the keys the body does not
    hold and runs the handler of the first one it holds. *)
Lemma action_loop_none (self : Methods) (keys : list string) req id
    (d : list (string * json)) (l : log) :
  (∀ key, key ∈ keys → dict_get key d = None) →
  Controller.action_loop self keys req id (JDict d) l
    = (Raise (HTTPException exc.HTTPNotImplemented), l).
Proof.
  induction keys as [| key keys IH]; intros Hnone; [done |].
  rewrite action_loop_cons. cbn [py_contains].
  rewrite (Hnone key) by by left.
  apply IH. intros k Hk. apply Hnone. by right.
Qed.

Lemma action_loop_some (self : Methods) (keys : list string) req id
    (d : list (string * json)) :
  (∀ key, key ∈ keys → key ∈ action_names) →
  (∃ key, key ∈ keys ∧ is_Some (dict_get key d)) →
  ∃ key handler,
    key ∈ keys ∧ is_Some (dict_get key d)
    ∧ Controller.actions_get key (Controller.actions self) = Some handler
    ∧ ∀ l, Controller.action_loop self keys req id (JDict d) l
           = handler (JDict d) req id l.
Proof.
  induction keys as [| key keys IH]; intros Hnames (k & Hk & Hheld).
  - by apply not_elem_of_nil in Hk.
  - destruct (dict_get key d) as [x |] eqn:Hget.
    + destruct (actions_bound self key) as [handler Hhandler];
        [apply Hnames; by left |].
      exists key, handler. split; [by left |]. split; [by rewrite Hget |].
      split; [done |]. intros l. rewrite action_loop_cons. cbn [py_contains].
      by rewrite Hget, Hhandler.
    + destruct IH as (key' & handler & Hin & Hheld' & Hhandler & Hrun).
      * intros k' Hk'. apply Hnames. by right.
      * apply elem_of_cons in Hk as [-> | Hk].
        -- rewrite Hget in Hheld. by destruct Hheld.
        -- by exists k.
      * exists key', handler. split; [by right |]. split; [done |].
        split; [done |]. intros l. rewrite action_loop_cons. cbn [py_contains].
        rewrite Hget. apply Hrun.
Qed.

Lemma action_loop_one_call (v : version) (keys : list string) req id body :
  appends 1 (Controller.action_loop (create_resource v) keys req id body).
Proof.
  induction keys as [| key keys IH]; cbn [Controller.action_loop].
  - apply (appends_mono 0 1); [lia | apply appends_raise].
  - apply (appends_bind 0 1); [apply appends_lift |]. intros [|]; [| apply IH].
    destruct (Controller.actions_get key (Controller.actions (create_resource v)))
      as [handler |] eqn:Hhandler.
    + by apply (handler_one_call v key).
    + apply (appends_mono 0 1); [lia | apply appends_raise].
Qed.

End Dispatch.

(** C4.  For every body, the dispatcher of either version adds at most
    one call to the log of the compute API.  If the body is a dictionary
    that holds none of the action names, it raises [HTTPNotImplemented],
    status 501, and makes no call.  If it holds one or more, there is one
    entry of the table [actions], under a name the body holds, whose
    handler is what the dispatcher runs. *)
Theorem action_dispatch `{Collaborators} (v : version) (req : Request)
    (id : string) (d : list (string * json)) (l : log) :
  (∀ body : json, ∃ calls : log,
     (Controller.action (create_resource v) req id body l).2 = l ++ calls
     ∧ (List.length calls ≤ 1)%nat)
  ∧ ((∀ key, key ∈ action_names → dict_get key d = None) →
     Controller.action (create_resource v) req id (JDict d) l
       = (Raise (HTTPException exc.HTTPNotImplemented), l)
     ∧ status_int exc.HTTPNotImplemented = 501)
  ∧ ((∃ key, key ∈ action_names ∧ is_Some (dict_get key d)) →
     ∃ key handler,
       key ∈ action_names ∧ is_Some (dict_get key d)
       ∧ Controller.actions_get key (Controller.actions (create_resource v))
         = Some handler
       ∧ Controller.action (create_resource v) req id (JDict d) l
         = redirect_handler (handler (JDict d) req id) l).
Proof.
  assert (∀ key, key ∈ actions_keys ↔ key ∈ action_names) as Hkeys.
  { intros key. by rewrite actions_keys_perm. }
  split; [| split].
  - intros body. apply appends_redirect, action_loop_one_call.
  - intros Hnone. split; [| done].
    unfold Controller.action, redirect_handler, try_except.
    rewrite action_loop_none; [done |].
    intros key Hkey. apply Hnone. by apply Hkeys.
  - intros (key & Hkey & Hheld).
    destruct (action_loop_some (create_resource v) actions_keys req id d)
      as (key' & handler & Hin & Hheld' & Hhandler & Hrun).
    + intros k Hk. by apply Hkeys.
    + exists key. split; [by apply Hkeys | done].
    + exists key', handler. split; [by apply Hkeys |]. split; [done |].
      split; [done |].
      unfold Controller.action, redirect_handler, try_except. by rewrite Hrun.
Qed.

Lemma action_dispatch_witness :
  (@Controller.action sample (@create_resource sample V11)
     (sample_request [] false) "1" (JDict [("createImage", JDict [])]) []
   = (Raise (HTTPException exc.HTTPNotImplemented), []))
  ∧ ∃ calls : log,
      (@Controller.action sample (@create_resource sample V11)
         (sample_request [] false) "1"
         (JDict [("migrate", JNone); ("reboot", JDict [("type", JStr "SOFT")])])
         []).2 = calls
      ∧ (List.length calls ≤ 1)%nat.
Proof.
  split.
  - apply (@action_dispatch sample V11 (sample_request [] false) "1"
             [("createImage", JDict [])] []).
    intros key Hkey.
    apply action_names_cases in Hkey as [-> | [-> | [-> | [-> | [-> | [-> | ->]]]]]];
      reflexivity.
  - apply (@action_dispatch sample V11 (sample_request [] false) "1"
             [("migrate", JNone); ("reboot", JDict [("type", JStr "SOFT")])] []).
Defined.

(** * Further properties of the controller *)

(** ** The option sanitizer, in every mode *)

(** X1.  With the administrative API enabled the sanitizer never changes
    the search options, and it raises [AdminRequired] exactly when the
    caller is not an administrator and one of the administrative options
    is a key of the search options. *)
Theorem sanitizer_enabled `{Collaborators} (context : RequestContext)
    (so : gmap string value) (opts : list string) :
  FLAGS_allow_admin_api = true →
  (check_admin_search_options context so opts).2 = so
  ∧ ((check_admin_search_options context so opts).1 = Raise AdminRequired
     ↔ is_admin context = false ∧ ∃ opt, opt ∈ opts ∧ is_Some (so !! opt))
  ∧ ((check_admin_search_options context so opts).1 = Return tt
     ↔ is_admin context = true ∨ ∀ opt, opt ∈ opts → so !! opt = None).
Proof.
  intros Hon.
  assert ((check_admin_search_options context so opts).2 = so) as Hsame.
  { unfold check_admin_search_options. rewrite Hon. simpl.
    destruct (is_admin context); [done |]. by destruct (filter _ _). }
  split; [done |].
  destruct (is_admin context) eqn:Hadm.
  - assert ((check_admin_search_options context so opts).1 = Return tt) as Hret.
    { apply sanitizer_accepts. right; by left. }
    rewrite Hret. split; split; try done; try by left. by intros [? _].
  - destruct (decide (Exists (fun opt => is_Some (so !! opt)) opts)) as [Hex | Hno].
    + apply Exists_exists in Hex as (opt & Hopt & Hsome).
      rewrite (sanitizer_rejects context so opts opt) by done. simpl.
      split; split; try done.
      * intros _. split; [done |]. by exists opt.
      * intros [? | Hnone]; [done |]. rewrite (Hnone opt Hopt) in Hsome.
        by destruct Hsome.
    + assert (∀ opt, opt ∈ opts → so !! opt = None) as Hnone.
      { intros opt Hopt. destruct (so !! opt) eqn:Hget; [| done].
        exfalso. apply Hno, Exists_exists. exists opt. by rewrite Hget. }
      assert ((check_admin_search_options context so opts).1 = Return tt) as Hret.
      { apply sanitizer_accepts. right; by right. }
      rewrite Hret. split; split; try done; try by right.
      intros (_ & opt & Hopt & Hsome). rewrite (Hnone opt Hopt) in Hsome.
      by destruct Hsome.
Qed.

Lemma sanitizer_enabled_witness :
  (@check_admin_search_options sample {| is_admin := true |}
     (list_to_map [("ip", VStr "10.0.0.7"); ("name", VStr "web")])
     ["ip"; "ip6"; "instance_name"]).2
  = list_to_map [("ip", VStr "10.0.0.7"); ("name", VStr "web")].
Proof.
  apply (@sanitizer_enabled sample {| is_admin := true |}
           (list_to_map [("ip", VStr "10.0.0.7"); ("name", VStr "web")])
           ["ip"; "ip6"; "instance_name"]).
  reflexivity.
Defined.

(** X2.  In every mode the sanitizer only removes: what it leaves is a
    part of the search options it was given, and an option that is not
    an administrative one is left as it was. *)
Theorem sanitizer_only_removes `{Collaborators} (context : RequestContext)
    (so : gmap string value) (opts : list string) :
  (check_admin_search_options context so opts).2 ⊆ so
  ∧ ∀ k, k ∉ opts → (check_admin_search_options context so opts).2 !! k = so !! k.
Proof.
  split; [| intros k Hk; by apply sanitizer_keeps_others].
  apply map_subseteq_spec. intros k x. unfold check_admin_search_options.
  destruct FLAGS_allow_admin_api; simpl.
  - destruct (is_admin context); [done |]. by destruct (filter _ _).
  - rewrite strip_lookup. by destruct (decide (k ∈ opts)).
Qed.

Lemma sanitizer_only_removes_witness :
  (@check_admin_search_options sample_off {| is_admin := true |}
     (list_to_map [("ip", VStr "10.0.0.7"); ("name", VStr "web")])
     ["ip"; "ip6"; "instance_name"]).2 !! "name"
  = Some (VStr "web").
Proof.
  rewrite (proj2 (@sanitizer_only_removes sample_off {| is_admin := true |}
                    (list_to_map [("ip", VStr "10.0.0.7"); ("name", VStr "web")])
                    ["ip"; "ip6"; "instance_name"]) "name").
  - reflexivity.
  - intros Hin. repeat (apply elem_of_cons in Hin as [Hin | Hin]; [discriminate |]).
    by apply not_elem_of_nil in Hin.
Defined.

(** X3.  Search options the sanitizer has let through pass it again
    unchanged: on its own output it raises nothing and removes nothing. *)
Theorem sanitizer_idempotent `{Collaborators} (context : RequestContext)
    (so so' : gmap string value) (opts : list string) :
  check_admin_search_options context so opts = (Return tt, so') →
  check_admin_search_options context so' opts = (Return tt, so').
Proof.
  unfold check_admin_search_options.
  destruct FLAGS_allow_admin_api; simpl.
  - destruct (is_admin context); [by intros [= <-] |].
    destruct (filter _ (map_to_list so).*1) eqn:Hf; [| done].
    intros [= <-]. by rewrite Hf.
  - intros [= <-]. f_equal. apply map_eq. intros k. rewrite !strip_lookup.
    by destruct (decide (k ∈ opts)).
Qed.

Lemma sanitizer_idempotent_witness :
  @check_admin_search_options sample_off {| is_admin := false |}
    (delete "ip" (list_to_map [("ip", VStr "10.0.0.7"); ("name", VStr "web")]))
    ["ip"]
  = (Return tt,
     delete "ip" (list_to_map [("ip", VStr "10.0.0.7"); ("name", VStr "web")])).
Proof.
  apply (@sanitizer_idempotent sample_off {| is_admin := false |}
           (list_to_map [("ip", VStr "10.0.0.7"); ("name", VStr "web")])).
  reflexivity.
Defined.

(** ** What a listing request asks of the compute API *)

Section ListingCalls.
Context `{Collaborators}.

Lemma sanitizer_enabled_unchanged (context : RequestContext)
    (so : gmap string value) (opts : list string) :
  FLAGS_allow_admin_api = true →
  (check_admin_search_options context so opts).2 = so.
Proof.
  intros Hon. unfold check_admin_search_options. rewrite Hon. simpl.
  destruct (is_admin context); [done |]. by destruct (filter _ _).
Qed.



Lemma request_calls_inv (req : Request) (c : compute_api.call) :
  c ∈ request_calls req →
  ∃ so0 so1,
    check_admin_search_options (nova_context req) (VStr <$> str_GET req) admin_api
      = (Return tt, so0)
    ∧ coerced so0 = Return so1
    ∧ c ∈ search_calls (nova_context req) so1.
Proof.
  unfold request_calls. intros Hc.
  destruct (check_admin_search_options _ _ _) as [[[] | e] so0];
    [| by apply not_elem_of_nil in Hc].
  destruct (coerced so0) as [so1 | e] eqn:Hco;
    [| by apply not_elem_of_nil in Hc].
  by exists so0, so1.
Qed.




End ListingCalls.


(** X5.  The options of the query that the pipeline has no rule for reach
    [get_all] as the strings of the query; so do the administrative
    options whenever the administrative API is enabled and the request
    gets as far as the call. *)
Theorem options_passed_on `{Collaborators} (v : version) (req : Request)
    (context : RequestContext) (so : gmap string value) (k : string) :
  compute_api.get_all context so ∈ (Controller.index (create_resource v) req []).2 →
  k ∉ ["status"; "state"; "changes-since"; "fresh"; "recurse_zones"; "flavor"] →
  k ∉ admin_api ∨ FLAGS_allow_admin_api = true →
  so !! k = VStr <$> str_GET req !! k.
Proof.
  rewrite index_run, listing_outcome_log, servers_from_request_log. simpl.
  intros Hc Hk Hadm.
  destruct (request_calls_inv req _ Hc) as (so0 & so1 & Hgate & Hco & Hsearch).
  assert (k ≠ "status" ∧ k ≠ "state" ∧ k ≠ "changes-since" ∧ k ≠ "fresh"
          ∧ k ≠ "recurse_zones" ∧ k ≠ "flavor") as (H1 & H2 & H3 & H4 & H5 & H6).
  { repeat split; intros ->; apply Hk; solve [repeat constructor]. }
  rewrite (search_calls_lookup _ _ _ _ _ Hsearch) by done.
  rewrite (coerced_lookup _ _ _ Hco) by done.
  rewrite <- lookup_fmap.
  destruct Hadm as [Hnot | Hon].
  - pose proof (sanitizer_keeps_others (nova_context req) (VStr <$> str_GET req)
                  admin_api k Hnot) as Hkeep.
    by rewrite Hgate in Hkeep.
  - pose proof (sanitizer_enabled_unchanged (nova_context req)
                  (VStr <$> str_GET req) admin_api Hon) as Hsame.
    rewrite Hgate in Hsame. simpl in Hsame. by rewrite Hsame.
Qed.

Lemma options_passed_on_witness :
  ∃ so : gmap string value,
    (@Controller.index sample (@create_resource sample V10)
       (sample_request [("ip", "10.0.0.7"); ("name", "web")] true) []).2
      = [compute_api.get_all {| is_admin := true |} so]
    ∧ so !! "ip" = Some (VStr "10.0.0.7").
Proof.
  eexists. split; [vm_compute; reflexivity |].
  apply (@options_passed_on sample V10
           (sample_request [("ip", "10.0.0.7"); ("name", "web")] true)
           {| is_admin := true |} _ "ip").
  - vm_compute. apply list_elem_of_singleton. reflexivity.
  - intros Hin. repeat (apply elem_of_cons in Hin as [Hin | Hin]; [discriminate |]).
    by apply not_elem_of_nil in Hin.
  - right. reflexivity.
Defined.

(** ** How a listing request ends *)

Section ListingOutcome.
Context `{Collaborators}.

Lemma for_each_returns {A B : Type} (f : A → M B) (g : A → B) (xs : list A)
    (l : log) :
  (∀ x, x ∈ xs → f x l = (Return (g x), l)) →
  for_each f xs l = (Return (map g xs), l).
Proof.
  induction xs as [| x xs IH]; intros Hf; [done |].
  cbn [for_each]. unfold mbind at 1, M_bind at 1.
  rewrite (Hf x) by by left.
  unfold mbind at 1, M_bind at 1. rewrite IH; [done |].
  intros y Hy. apply Hf. by right.
Qed.

Lemma servers_search_raises (self : Methods) (context : RequestContext)
    (req : Request) (is_detail : bool) (so : gmap string value) (l : log)
    (call : compute_api.call) (e : exn) :
  search_calls context so = [call] → compute_api_answer l call = Raise e →
  Controller._servers_search self context req is_detail so l
    = (Raise e, l ++ [call]).
Proof.
  unfold search_calls, Controller._servers_search. intros Hcall Hanswer.
  destruct (so !! "status") as [status |].
  - destruct (states_from_status status) as [| s ss] eqn:Hstates; [done |].
    injection Hcall as <-.
    unfold mbind, M_bind, invoke, mret, M_ret.
    cbn [List.length Nat.eqb]. by rewrite Hanswer.
  - injection Hcall as <-. unfold mbind, M_bind, invoke, mret, M_ret.
    by rewrite Hanswer.
Qed.

Lemma servers_search_returns (self : Methods) (context : RequestContext)
    (req : Request) (is_detail : bool) (so : gmap string value) (l : log)
    (call : compute_api.call) (instance_list : json) :
  search_calls context so = [call] →
  compute_api_answer l call = Return instance_list →
  Controller._servers_search self context req is_detail so l
    = (limited_list ← self_limit_items self instance_list req;
       insts ← lift (py_iter limited_list);
       servers ← for_each (fun inst =>
                    view ← self_build_view self req inst is_detail;
                    lift (py_getitem view "server")) insts;
       mret (JDict [("servers", JList servers)])) (l ++ [call]).
Proof.
  unfold search_calls, Controller._servers_search. intros Hcall Hanswer.
  destruct (so !! "status") as [status |].
  - destruct (states_from_status status) as [| s ss] eqn:Hstates; [done |].
    injection Hcall as <-.
    unfold mbind at 1, M_bind at 1, mret at 1, M_ret at 1.
    cbn [List.length Nat.eqb].
    unfold mbind at 1, M_bind at 1, invoke at 1. by rewrite Hanswer.
  - injection Hcall as <-.
    unfold mbind at 1, M_bind at 1, mret at 1, M_ret at 1.
    unfold mbind at 1, M_bind at 1, invoke at 1. by rewrite Hanswer.
Qed.

Lemma request_reaches (v : version) (req : Request) (is_detail : bool)
    (l : log) (call : compute_api.call) :
  (Controller._servers_from_request (create_resource v) req is_detail l).2
    = l ++ [call] →
  ∃ so, Controller._servers_from_request (create_resource v) req is_detail l
        = Controller._servers_search (create_resource v) (nova_context req)
            req is_detail so l
        ∧ search_calls (nova_context req) so = [call].
Proof.
  rewrite servers_from_request_log. intros Hlog.
  apply app_inv_head in Hlog. rewrite servers_from_request_run.
  unfold request_calls in Hlog.
  destruct (check_admin_search_options _ _ _) as [[[] | e] so0]; [| done].
  destruct (coerced so0) as [so1 | e]; [| done]. by exists so1.
Qed.

End ListingOutcome.

(** X6.  When a listing request gets as far as its call and the compute
    API raises: [NotFound] is answered with a returned [HTTPNotFound],
    status 404, [Invalid] and [InvalidInput] with a returned
    [HTTPBadRequest], status 400, carrying the text of the error, and
    any other exception leaves [index] and [detail] as it was raised. *)
Theorem listing_backend_errors `{Collaborators} (v : version) (req : Request)
    (l : log) (call : compute_api.call) (e : exn) :
  (Controller.index (create_resource v) req l).2 = l ++ [call] →
  compute_api_answer l call = Raise e →
  let outcome :=
    if is_Invalid e then Return (RResponse (exc.HTTPBadRequest (str_exn e)))
    else if is_NotFound e then Return (RResponse exc.HTTPNotFound)
    else Raise e in
  Controller.index (create_resource v) req l = (outcome, l ++ [call])
  ∧ Controller.detail (create_resource v) req l = (outcome, l ++ [call]).
Proof.
  intros Hlog Hanswer.
  rewrite index_run, listing_outcome_log, servers_from_request_log in Hlog.
  assert (∀ d, (Controller._servers_from_request (create_resource v) req d l).2
               = l ++ [call]) as Hany
    by (intros d; by rewrite servers_from_request_log).
  simpl. rewrite index_run, detail_run.
  destruct (request_reaches v req false l call (Hany false)) as (so & -> & Hcall).
  destruct (request_reaches v req true l call (Hany true)) as (so' & -> & Hcall').
  rewrite (servers_search_raises _ _ _ _ _ _ _ _ Hcall Hanswer).
  rewrite (servers_search_raises _ _ _ _ _ _ _ _ Hcall' Hanswer).
  unfold listing_outcome.
  destruct (is_Invalid e); [done |]. by destruct (is_NotFound e).
Qed.

Lemma listing_backend_errors_witness :
  @Controller.index sample_raising (@create_resource sample_raising V11)
    (sample_request [("name", "web")] false) []
  = (Return (RResponse exc.HTTPNotFound),
     [compute_api.get_all {| is_admin := false |}
        (<["recurse_zones" := VBool false]> (list_to_map [("name", VStr "web")]))]).
Proof.
  apply (@listing_backend_errors sample_raising V11
           (sample_request [("name", "web")] false) []
           (compute_api.get_all {| is_admin := false |}
              (<["recurse_zones" := VBool false]> (list_to_map [("name", VStr "web")])))
           NotFound).
  - vm_compute. reflexivity.
  - reflexivity.
Defined.

(** X7.  When the compute API answers the listing call, the limit step
    leaves a list of instances and each of them has a view with a
    [server] entry, [index] returns the dictionary with the single key
    [servers], holding these entries, one for each instance, in the order
    of the list; [detail] does the same with the detailed views. *)
Theorem listing_servers `{Collaborators} (v : version) (req : Request)
    (l : log) (call : compute_api.call) (instance_list : json)
    (insts : list json) (server : bool → json → json) :
  let limit := match v with V10 => limited | V11 => limited_by_marker end in
  let build := match v with
               | V10 => ViewBuilderV10_build
               | V11 => ViewBuilderV11_build (application_url req)
               end in
  (Controller.index (create_resource v) req l).2 = l ++ [call] →
  compute_api_answer l call = Return instance_list →
  limit instance_list req = Return (JList insts) →
  (∀ is_detail inst, inst ∈ insts →
     ∃ view, build inst is_detail = Return view
             ∧ py_getitem view "server" = Return (server is_detail inst)) →
  Controller.index (create_resource v) req l
    = (Return (RValue (JDict [("servers", JList (map (server false) insts))])),
       l ++ [call])
  ∧ Controller.detail (create_resource v) req l
    = (Return (RValue (JDict [("servers", JList (map (server true) insts))])),
       l ++ [call]).
Proof.
  intros limit build Hlog Hanswer Hlimit Hviews.
  rewrite index_run, listing_outcome_log, servers_from_request_log in Hlog.
  assert (∀ d, (Controller._servers_from_request (create_resource v) req d l).2
               = l ++ [call]) as Hany
    by (intros d; by rewrite servers_from_request_log).
  assert (∀ d so, search_calls (nova_context req) so = [call] →
            Controller._servers_search (create_resource v) (nova_context req)
              req d so l
            = (Return (JDict [("servers", JList (map (server d) insts))]),
               l ++ [call])) as Hsearch.
  { intros d so Hcall.
    rewrite (servers_search_returns _ _ _ _ _ _ _ _ Hcall Hanswer).
    assert (self_limit_items (create_resource v) instance_list req (l ++ [call])
            = (Return (JList insts), l ++ [call])) as Hlimited.
    { destruct v; simpl; unfold ControllerV10._limit_items,
        ControllerV11._limit_items, lift; subst limit; simpl in Hlimit;
        by rewrite Hlimit. }
    unfold mbind at 1, M_bind at 1. rewrite Hlimited.
    unfold mbind at 1, M_bind at 1, lift at 1.
    cbn [py_iter]. unfold mbind at 1, M_bind at 1.
    rewrite (for_each_returns _ (server d)); [done |].
    intros inst Hinst. destruct (Hviews d inst Hinst) as (view & Hview & Hserver).
    assert (self_build_view (create_resource v) req inst d (l ++ [call])
            = (Return view, l ++ [call])) as Hbuilt.
    { destruct v; simpl; unfold ControllerV10._build_view,
        ControllerV11._build_view, lift; subst build; simpl in Hview;
        by rewrite Hview. }
    unfold mbind, M_bind. rewrite Hbuilt. unfold lift. by rewrite Hserver. }
  rewrite index_run, detail_run.
  destruct (request_reaches v req false l call (Hany false)) as (so & -> & Hcall).
  destruct (request_reaches v req true l call (Hany true)) as (so' & -> & Hcall').
  by rewrite (Hsearch false so Hcall), (Hsearch true so' Hcall').
Qed.

Lemma listing_servers_witness :
  @Controller.index sample_two (@create_resource sample_two V10)
    (sample_request [] false) []
  = (Return (RValue (JDict [("servers",
       JList [JDict [("id", JInt 1)]; JDict [("id", JInt 2)]])])),
     [compute_api.get_all {| is_admin := false |}
        (<["recurse_zones" := VBool false]> ∅)]).
Proof.
  apply (@listing_servers sample_two V10 (sample_request [] false) []
           (compute_api.get_all {| is_admin := false |}
              (<["recurse_zones" := VBool false]> ∅))
           (JList [JDict [("id", JInt 1)]; JDict [("id", JInt 2)]])
           [JDict [("id", JInt 1)]; JDict [("id", JInt 2)]]
           (fun _ inst => inst)).
  - vm_compute. reflexivity.
  - reflexivity.
  - reflexivity.
  - intros is_detail inst _. exists (JDict [("server", inst)]). split; reflexivity.
Defined.

(** ** Update *)

Section Emits.
Context `{Collaborators}.

Lemma emits_silent {A} (P : compute_api.call → Prop) (n : nat) (m : M A) :
  appends 0 m → emits P n m.
Proof.
  intros Hm l. exists []. rewrite app_nil_r.
  split; [by apply appends_0 |]. split; [simpl; lia | done].
Qed.

Lemma emits_invoke (P : compute_api.call → Prop) (c : compute_api.call) :
  P c → emits P 1 (invoke c).
Proof. intros Hc l. exists [c]. split; [done |]. split; [done |]. by constructor. Qed.

Lemma emits_bind {A B} (P : compute_api.call → Prop) (n k : nat) (m : M A)
    (f : A → M B) :
  emits P n m → (∀ a, emits P k (f a)) → emits P (n + k) (m ≫= f).
Proof.
  intros Hm Hf l. unfold mbind, M_bind.
  destruct (Hm l) as (c1 & Heq1 & Hlen1 & HP1).
  destruct (m l) as [[a | e] l1] eqn:Hrun; simpl in Heq1; subst l1.
  - destruct (Hf a (l ++ c1)) as (c2 & Heq2 & Hlen2 & HP2).
    exists (c1 ++ c2). rewrite Heq2, length_app, app_assoc.
    split; [done |]. split; [lia |]. by apply Forall_app.
  - exists c1. split; [done |]. split; [lia | done].
Qed.

Lemma emits_try {A} (P : compute_api.call → Prop) (n k : nat) (m : M A)
    (h : exn → option (M A)) :
  emits P n m → (∀ e k', h e = Some k' → emits P k k') →
  emits P (n + k) (try_except m h).
Proof.
  intros Hm Hh l. unfold try_except.
  destruct (Hm l) as (c1 & Heq1 & Hlen1 & HP1).
  destruct (m l) as [[a | e] l1] eqn:Hrun; simpl in Heq1; subst l1.
  - exists c1. split; [done |]. split; [lia | done].
  - destruct (h e) as [k' |] eqn:He.
    + destruct (Hh e k' He (l ++ c1)) as (c2 & Heq2 & Hlen2 & HP2).
      exists (c1 ++ c2). rewrite Heq2, length_app, app_assoc.
      split; [done |]. split; [lia |]. by apply Forall_app.
    + exists c1. split; [done |]. split; [lia | done].
Qed.

Lemma emits_redirect (P : compute_api.call → Prop) (n : nat) (f : M retval) :
  emits P n f → emits P n (redirect_handler f).
Proof.
  intros Hf. unfold redirect_handler.
  replace n with (n + 0)%nat by lia. apply emits_try; [done |].
  intros e k' He. destruct e; inversion He; subst.
  apply emits_silent, appends_ret.
Qed.

End Emits.

Section Update.
Context `{Collaborators}.

(** [update] on a body whose [server] entry is a dictionary: the checks
    on the body are passed, and what remains is the work on the name,
    the version's [_parse_update] and the call. *)
Lemma update_run (self : Methods) (req : Request) (id : string)
    (d s : list (string * json)) (l : log) :
  req_body req ≠ "" → dict_get "server" d = Some (JDict s) →
  Controller.update self req id (JDict d) l
  = redirect_handler (
      update_dict ←
        match dict_get "name" s with
        | Some name =>
            _ ← lift (_validate_server_name name);
            stripped ← lift (Controller.name_strip name);
            mret [("display_name", stripped)]
        | None => mret []
        end;
      _ ← self_parse_update self (nova_context req) id (JDict d) update_dict;
      _ ← try_except
            (_ ← invoke (compute_api.update (nova_context req) id update_dict);
             mret tt)
            (fun e =>
               if is_NotFound e
               then Some (raise (HTTPException exc.HTTPNotFound))
               else None);
      mret (RResponse exc.HTTPNoContent)) l.
Proof.
  intros Hraw Hserver. unfold Controller.update.
  destruct (req_body req) as [| c raw]; [done |].
  destruct d as [| kv d']; [done |].
  cbn [String.length Nat.eqb py_bool negb].
  unfold redirect_handler, try_except. f_equal.
  unfold mbind at 1, M_bind at 1, lift at 1, py_getitem. rewrite Hserver.
  unfold mbind at 1, M_bind at 1, lift at 1, py_contains.
  unfold mbind at 1 3, M_bind at 1 3.
  destruct (dict_get "name" s) as [name |] eqn:Hname; [| done].
  unfold mbind at 1, M_bind at 1, lift at 1, argument, py_getitem.
  by rewrite Hserver, Hname.
Qed.

End Update.

(** X8.  An update whose [server] entry names the server (and, for the
    legacy version, carries no [adminPass]) makes one call: [update]
    with [display_name] set to the name without the white space around
    it, that of unicode strings.
    An answer of the call gives [HTTPNoContent], status 204; [NotFound]
    is answered by raising [HTTPNotFound], status 404. *)
Theorem update_renames `{Collaborators} (v : version) (req : Request)
    (id : string) (d s : list (string * json)) (name : string) (l : log) :
  let call := compute_api.update (nova_context req) id
                [("display_name", JStr (unicode_strip name))] in
  req_body req ≠ "" →
  dict_get "server" d = Some (JDict s) →
  dict_get "name" s = Some (JStr name) →
  dict_get "adminPass" s = None →
  _validate_server_name (JStr name) = Return tt →
  (∀ answer, compute_api_answer l call = Return answer →
     Controller.update (create_resource v) req id (JDict d) l
       = (Return (RResponse exc.HTTPNoContent), l ++ [call]))
  ∧ (compute_api_answer l call = Raise NotFound →
     Controller.update (create_resource v) req id (JDict d) l
       = (Raise (HTTPException exc.HTTPNotFound), l ++ [call]))
  ∧ status_int exc.HTTPNoContent = 204.
Proof.
  intros call Hraw Hserver Hname Hpass Hvalid.
  assert (∀ ud, self_parse_update (create_resource v) (nova_context req) id
                  (JDict d) ud l = (Return tt, l)) as Hparse.
  { intros ud. destruct v; [| done]. simpl.
    unfold ControllerV10._parse_update, mbind, M_bind, lift, py_getitem,
      py_contains. by rewrite Hserver, Hpass. }
  split; [| split; [| done]].
  - intros answer Hanswer. rewrite (update_run _ _ _ _ s) by done.
    rewrite Hname. unfold redirect_handler, try_except.
    unfold mbind at 1, M_bind at 1. unfold mbind at 1, M_bind at 1, lift at 1.
    rewrite Hvalid. cbn [Controller.name_strip].
    unfold mbind at 1, M_bind at 1, lift at 1, mret at 1, M_ret at 1.
    unfold mbind at 1, M_bind at 1. rewrite Hparse.
    unfold mbind, M_bind, invoke. fold call. by rewrite Hanswer.
  - intros Hanswer. rewrite (update_run _ _ _ _ s) by done.
    rewrite Hname. unfold redirect_handler, try_except.
    unfold mbind at 1, M_bind at 1. unfold mbind at 1, M_bind at 1, lift at 1.
    rewrite Hvalid. cbn [Controller.name_strip].
    unfold mbind at 1, M_bind at 1, lift at 1, mret at 1, M_ret at 1.
    unfold mbind at 1, M_bind at 1. rewrite Hparse.
    unfold mbind, M_bind, invoke. fold call. by rewrite Hanswer.
Qed.

Lemma update_renames_witness :
  @Controller.update sample (@create_resource sample V11)
    {| str_GET := ∅; nova_context := {| is_admin := false |};
       req_body := "<server name=' web 1 '/>"; application_url := "" |}
    "1" (JDict [("server", JDict [("name", JStr " web 1 ")])]) []
  = (Return (RResponse exc.HTTPNoContent),
     [compute_api.update {| is_admin := false |} "1"
        [("display_name", JStr "web 1")]]).
Proof.
  apply (proj1 (@update_renames sample V11
           {| str_GET := ∅; nova_context := {| is_admin := false |};
              req_body := "<server name=' web 1 '/>"; application_url := "" |}
           "1" [("server", JDict [("name", JStr " web 1 ")])]
           [("name", JStr " web 1 ")] " web 1 " []
           ltac:(discriminate) eq_refl eq_refl eq_refl eq_refl) JNone).
  reflexivity.
Defined.

(** X9.  The name is checked before anything is asked of the compute
    API: when [_validate_server_name] rejects the name of the body,
    [update] ends with the exception of the check and has made no call. *)
Theorem update_validates_first `{Collaborators} (self : Methods) (req : Request)
    (id : string) (d s : list (string * json)) (name : json) (e : exn)
    (l : log) :
  req_body req ≠ "" →
  dict_get "server" d = Some (JDict s) →
  dict_get "name" s = Some name →
  _validate_server_name name = Raise e →
  (∀ results, e ≠ RedirectResult results) →
  Controller.update self req id (JDict d) l = (Raise e, l).
Proof.
  intros Hraw Hserver Hname Hvalid Hredirect.
  rewrite (update_run _ _ _ _ s) by done. rewrite Hname.
  unfold redirect_handler, try_except.
  unfold mbind at 1, M_bind at 1. unfold mbind at 1, M_bind at 1, lift at 1.
  rewrite Hvalid. destruct e; try done. by destruct (Hredirect results).
Qed.

Lemma update_validates_first_witness :
  @Controller.update sample_two (@create_resource sample_two V10)
    {| str_GET := ∅; nova_context := {| is_admin := false |};
       req_body := "<server name=''/>"; application_url := "" |}
    "1" (JDict [("server", JDict [("name", JStr "")])]) []
  = (Raise (HTTPException (exc.HTTPBadRequest "Server name is an empty string")), []).
Proof.
  apply (@update_validates_first sample_two (@create_resource sample_two V10)
           {| str_GET := ∅; nova_context := {| is_admin := false |};
              req_body := "<server name=''/>"; application_url := "" |}
           "1" [("server", JDict [("name", JStr "")])] [("name", JStr "")]
           (JStr "")).
  - discriminate.
  - reflexivity.
  - reflexivity.
  - reflexivity.
  - discriminate.
Defined.

(** X10.  A legacy update with an [adminPass] and no name sets the
    password first and updates afterwards: two calls in this order when
    both are answered, and when [set_admin_password] raises, the
    exception leaves the handler and [update] is not called.  The
    current version, on the same body, calls [update] only. *)
Theorem update_sets_password_first `{Collaborators} (req : Request)
    (id : string) (d s : list (string * json)) (password : json) (l : log) :
  let set := compute_api.set_admin_password (nova_context req) id password in
  let upd := compute_api.update (nova_context req) id [] in
  req_body req ≠ "" →
  dict_get "server" d = Some (JDict s) →
  dict_get "name" s = None →
  dict_get "adminPass" s = Some password →
  (∀ a1 a2, compute_api_answer l set = Return a1 →
     compute_api_answer (l ++ [set]) upd = Return a2 →
     Controller.update (create_resource V10) req id (JDict d) l
       = (Return (RResponse exc.HTTPNoContent), l ++ [set; upd]))
  ∧ (∀ e, compute_api_answer l set = Raise e →
     (∀ results, e ≠ RedirectResult results) →
     Controller.update (create_resource V10) req id (JDict d) l
       = (Raise e, l ++ [set]))
  ∧ (Controller.update (create_resource V11) req id (JDict d) l).2 = l ++ [upd].
Proof.
  intros set upd Hraw Hserver Hname Hpass.
  assert (∀ ud, ControllerV10._parse_update (nova_context req) id (JDict d) ud l
                = (match compute_api_answer l set with
                   | Return _ => Return tt
                   | Raise e => Raise e
                   end, l ++ [set])) as Hparse.
  { intros ud.
    unfold ControllerV10._parse_update, mbind, M_bind, lift, argument,
      py_getitem, py_contains, invoke.
    rewrite Hserver, Hpass. fold set. by destruct (compute_api_answer l set). }
  split; [| split].
  - intros a1 a2 Hset Hupd. rewrite (update_run _ _ _ _ s) by done.
    rewrite Hname. unfold redirect_handler, try_except.
    unfold mbind at 1, M_bind at 1, mret at 1, M_ret at 1.
    unfold mbind at 1, M_bind at 1. simpl self_parse_update.
    rewrite Hparse, Hset.
    unfold mbind, M_bind, invoke. fold upd. rewrite Hupd.
    by rewrite <- app_assoc.
  - intros e Hset Hredirect. rewrite (update_run _ _ _ _ s) by done.
    rewrite Hname. unfold redirect_handler, try_except.
    unfold mbind at 1, M_bind at 1, mret at 1, M_ret at 1.
    unfold mbind at 1, M_bind at 1. simpl self_parse_update.
    rewrite Hparse, Hset. destruct e; try done. by destruct (Hredirect results).
  - rewrite (update_run _ _ _ _ s) by done.
    rewrite Hname. unfold redirect_handler, try_except.
    unfold mbind at 1, M_bind at 1, mret at 1, M_ret at 1.
    unfold mbind at 1, M_bind at 1. simpl self_parse_update.
    unfold Controller._parse_update, mret at 1, M_ret at 1.
    unfold mbind, M_bind, invoke. fold upd.
    destruct (compute_api_answer l upd) as [a | e]; [done |]. simpl.
    destruct (is_NotFound e); [done |]. by destruct e.
Qed.

Lemma update_sets_password_first_witness :
  @Controller.update sample (@create_resource sample V10)
    {| str_GET := ∅; nova_context := {| is_admin := false |};
       req_body := "<server adminPass='s3cret'/>"; application_url := "" |}
    "1" (JDict [("server", JDict [("adminPass", JStr "s3cret")])]) []
  = (Return (RResponse exc.HTTPNoContent),
     [compute_api.set_admin_password {| is_admin := false |} "1" (JStr "s3cret");
      compute_api.update {| is_admin := false |} "1" []]).
Proof.
  apply (proj1 (@update_sets_password_first sample
           {| str_GET := ∅; nova_context := {| is_admin := false |};
              req_body := "<server adminPass='s3cret'/>"; application_url := "" |}
           "1" [("server", JDict [("adminPass", JStr "s3cret")])]
           [("adminPass", JStr "s3cret")] (JStr "s3cret") []
           ltac:(discriminate) eq_refl eq_refl eq_refl) JNone JNone).
  - reflexivity.
  - reflexivity.
Defined.

(** X11.  Whatever the body, an update through the current version makes
    at most one call, and the call is [update] on the server of the
    request: the current version never sets a password on update. *)
Theorem update_current_calls `{Collaborators} (req : Request) (id : string)
    (body : json) (l : log) :
  ∃ calls : log,
    (Controller.update (create_resource V11) req id body l).2 = l ++ calls
    ∧ (List.length calls ≤ 1)%nat
    ∧ Forall (fun c => ∃ kwargs,
                c = compute_api.update (nova_context req) id kwargs) calls.
Proof.
  revert l. change (emits (fun c => ∃ kwargs,
                      c = compute_api.update (nova_context req) id kwargs) 1
                      (Controller.update (create_resource V11) req id body)).
  unfold Controller.update. apply emits_redirect.
  destruct (Nat.eqb _ 0); [apply emits_silent; silent |].
  destruct (negb _); [apply emits_silent; silent |].
  apply (emits_bind _ 0 1); [apply emits_silent; silent |]. intros server.
  apply (emits_bind _ 0 1); [apply emits_silent; silent |]. intros has_name.
  apply (emits_bind _ 0 1); [apply emits_silent; silent |]. intros update_dict.
  apply (emits_bind _ 0 1); [apply emits_silent; apply appends_ret |]. intros _.
  apply (emits_bind _ 1 0); [| intros; apply emits_silent; silent].
  apply (emits_try _ 1 0).
  - apply (emits_bind _ 1 0); [| intros; apply emits_silent; silent].
    apply emits_invoke. by eexists.
  - intros e k' Hh. clause Hh. apply emits_silent. silent.
Qed.

(** ** The other handlers of the dispatcher *)

(** X12.  Changing the password.  The legacy handler answers
    [HTTPNotImplemented], status 501, for every body.  The current
    handler goes by its test for [changePassword.adminPass]: when the
    test is false it answers with a returned [HTTPBadRequest], status
    400, and makes no call; when the test itself raises (the entry under
    [changePassword] is [None], a boolean or a number) or the password
    cannot be read after it, the exception leaves the handler and no call
    is made.  A password that is not a string or is the empty string
    gives a returned 400 and no call; any other password is given to
    [set_admin_password] in one call, whose answer gives 202 and whose
    exception leaves the handler. *)
Theorem change_password_handlers `{Collaborators} (input_dict : json)
    (req : Request) (id : string) (l : log) :
  Controller._action_change_password input_dict req id l
    = (Return (RResponse exc.HTTPNotImplemented), l)
  ∧ (has_argument "changePassword" "adminPass" input_dict = Return false →
     ControllerV11._action_change_password input_dict req id l
       = (Return (RResponse (exc.HTTPBadRequest "No adminPass was specified")), l))
  ∧ (∀ e, has_argument "changePassword" "adminPass" input_dict = Raise e →
       ControllerV11._action_change_password input_dict req id l = (Raise e, l))
  ∧ (∀ d v, input_dict = JDict d → dict_get "changePassword" d = Some v →
       v = JNone ∨ (∃ b, v = JBool b) ∨ (∃ z, v = JInt z) →
       ControllerV11._action_change_password input_dict req id l
         = (Raise TypeError, l))
  ∧ (∀ e, has_argument "changePassword" "adminPass" input_dict = Return true →
       argument "changePassword" "adminPass" input_dict = Raise e →
       ControllerV11._action_change_password input_dict req id l = (Raise e, l))
  ∧ (∀ password,
       argument "changePassword" "adminPass" input_dict = Return password →
       (∀ s, password = JStr s → s = "") →
       ControllerV11._action_change_password input_dict req id l
         = (Return (RResponse (exc.HTTPBadRequest "Invalid adminPass")), l))
  ∧ (∀ s, argument "changePassword" "adminPass" input_dict = Return (JStr s) →
       s ≠ "" →
       let call := compute_api.set_admin_password (nova_context req) id (JStr s) in
       ControllerV11._action_change_password input_dict req id l
         = (match compute_api_answer l call with
            | Return _ => Return (RResponse (webob.Response 202))
            | Raise e => Raise e
            end, l ++ [call])).
Proof.
  assert (∀ e, has_argument "changePassword" "adminPass" input_dict = Raise e →
            ControllerV11._action_change_password input_dict req id l
            = (Raise e, l)) as Hraises.
  { intros e Htest.
    unfold ControllerV11._action_change_password, mbind, M_bind, lift.
    by rewrite Htest. }
  split; [done |]. split; [| split; [done | split; [| split; [| split]]]].
  - intros Hmissing.
    unfold ControllerV11._action_change_password, mbind, M_bind, lift.
    by rewrite Hmissing.
  - intros d v -> Hget Hshape. apply Hraises.
    unfold has_argument, py_contains, py_getitem. rewrite Hget.
    by destruct Hshape as [-> | [[b ->] | [z ->]]].
  - intros e Htest Harg.
    unfold ControllerV11._action_change_password, mbind, M_bind, lift.
    by rewrite Htest, Harg.
  - intros password Harg Hempty.
    unfold ControllerV11._action_change_password, mbind, M_bind, lift.
    rewrite (argument_present _ _ _ _ Harg), Harg. simpl.
    destruct password as [| | | s | |]; try done.
    rewrite (Hempty s eq_refl). done.
  - intros s Harg Hs. simpl.
    unfold ControllerV11._action_change_password, mbind, M_bind, lift, invoke.
    rewrite (argument_present _ _ _ _ Harg), Harg.
    cbn [negb ControllerV11.is_basestring is_JStr orb].
    destruct (String.eqb_spec "" s) as [<- | _]; [done |].
    by destruct (compute_api_answer l _).
Qed.

Lemma change_password_handlers_witness :
  (@ControllerV11._action_change_password sample
     (JDict [("changePassword", JDict [])])
     (sample_request [] false) "1" []
   = (Return (RResponse (exc.HTTPBadRequest "No adminPass was specified")), []))
  ∧ (@ControllerV11._action_change_password sample
       (JDict [("changePassword", JNone)])
       (sample_request [] false) "1" []
     = (Raise TypeError, []))
  ∧ (@ControllerV11._action_change_password sample
       (JDict [("changePassword", JDict [("adminPass", JStr "")])])
       (sample_request [] false) "1" []
     = (Return (RResponse (exc.HTTPBadRequest "Invalid adminPass")), []))
  ∧ (@ControllerV11._action_change_password sample
       (JDict [("changePassword", JDict [("adminPass", JStr "s3cret")])])
       (sample_request [] false) "1" []
     = (Return (RResponse (webob.Response 202)),
        [compute_api.set_admin_password {| is_admin := false |} "1" (JStr "s3cret")])).
Proof.
  split; [| split; [| split]].
  - apply (proj1 (proj2 (@change_password_handlers sample
             (JDict [("changePassword", JDict [])])
             (sample_request [] false) "1" []))).
    reflexivity.
  - apply (proj1 (proj2 (proj2 (proj2 (@change_password_handlers sample
             (JDict [("changePassword", JNone)])
             (sample_request [] false) "1" []))))
             [("changePassword", JNone)] JNone).
    + reflexivity.
    + reflexivity.
    + by left.
  - apply (proj1 (proj2 (proj2 (proj2 (proj2 (proj2
             (@change_password_handlers sample
                (JDict [("changePassword", JDict [("adminPass", JStr "")])])
                (sample_request [] false) "1" [])))))) (JStr "")).
    + reflexivity.
    + intros s [= <-]. reflexivity.
  - apply (proj2 (proj2 (proj2 (proj2 (proj2 (proj2
             (@change_password_handlers sample
                (JDict [("changePassword", JDict [("adminPass", JStr "s3cret")])])
                (sample_request [] false) "1" [])))))) "s3cret").
    + reflexivity.
    + discriminate.
Defined.

(** X13.  [confirmResize], [revertResize] and [migrate] do not read the
    body: each makes its one call whatever the body is ([migrate] calls
    [resize] with no flavor), turns every exception of the call into
    [HTTPBadRequest], status 400, and on an answer gives 204 for
    [confirmResize] and 202 for the other two. *)
Theorem resize_followups `{Collaborators} (input_dict : json) (req : Request)
    (id : string) (l : log) :
  let confirm := compute_api.confirm_resize (nova_context req) id in
  let revert := compute_api.revert_resize (nova_context req) id in
  let migrate := compute_api.resize (nova_context req) id None in
  let outcome (call : compute_api.call) (status : Z) :=
    (match compute_api_answer l call with
     | Return _ => Return (RResponse (mkResponse status ""))
     | Raise _ => Raise (HTTPException (mkResponse 400 ""))
     end, l ++ [call]) in
  Controller._action_confirm_resize input_dict req id l = outcome confirm 204
  ∧ Controller._action_revert_resize input_dict req id l = outcome revert 202
  ∧ Controller._action_migrate input_dict req id l = outcome migrate 202.
Proof.
  simpl. repeat split.
  - unfold Controller._action_confirm_resize, try_except, mbind, M_bind, invoke.
    by destruct (compute_api_answer l _).
  - unfold Controller._action_revert_resize, try_except, mbind, M_bind, invoke.
    by destruct (compute_api_answer l _).
  - unfold Controller._action_migrate, try_except, mbind, M_bind, invoke.
    by destruct (compute_api_answer l _).
Qed.

Section Rebuild.
Context `{Collaborators}.

Lemma argument_raises (outer inner : string) (d : json) (e : exn) :
  argument outer inner d = Raise e → is_KeyError_or_TypeError e = true.
Proof.
  unfold argument, py_getitem.
  destruct d as [| | | | | d]; try by intros [= <-].
  destruct (dict_get outer d) as [sub |]; [| by intros [= <-]].
  destruct sub as [| | | | | sub]; try by intros [= <-].
  destruct (dict_get inner sub); [done | by intros [= <-]].
Qed.

End Rebuild.

(** X14.  The legacy rebuild.  When [rebuild.imageId] cannot be read,
    whatever the shape of the body, the handler raises [HTTPBadRequest],
    status 400, and makes no call.  Otherwise it calls [rebuild] once
    with the image id: [BuildInProgress] is answered by raising
    [HTTPConflict], status 409, an answer gives 202, and any other
    exception leaves the handler as it was raised. *)
Theorem rebuild_legacy `{Collaborators} (info : json) (request : Request)
    (instance_id : string) (l : log) :
  (∀ e, argument "rebuild" "imageId" info = Raise e →
     ControllerV10._action_rebuild info request instance_id l
       = (Raise (HTTPException
            (exc.HTTPBadRequest "Could not parse imageId from request.")), l))
  ∧ (∀ image_id, argument "rebuild" "imageId" info = Return image_id →
       let call := compute_api.rebuild (nova_context request) instance_id
                     image_id [] in
       ControllerV10._action_rebuild info request instance_id l
         = (match compute_api_answer l call with
            | Return _ => Return (RResponse (webob.Response 202))
            | Raise e =>
                if is_BuildInProgress e
                then Raise (HTTPException (exc.HTTPConflict
                       ("Instance " +:+ instance_id
                        +:+ " is currently being rebuilt.")))
                else Raise e
            end, l ++ [call]))
  ∧ status_int (exc.HTTPConflict "") = 409.
Proof.
  split; [| split; [| done]].
  - intros e Harg. pose proof (argument_raises _ _ _ _ Harg) as Hkind.
    unfold ControllerV10._action_rebuild, mbind, M_bind, try_except, lift.
    by rewrite Harg, Hkind.
  - intros image_id Harg. simpl.
    unfold ControllerV10._action_rebuild, mbind, M_bind, try_except, lift, invoke.
    rewrite Harg. destruct (compute_api_answer l _) as [a | e]; [done |].
    by destruct (is_BuildInProgress e).
Qed.

Lemma rebuild_legacy_witness :
  (@ControllerV10._action_rebuild sample (JDict [("rebuild", JNone)])
     (sample_request [] false) "1" []
   = (Raise (HTTPException
        (exc.HTTPBadRequest "Could not parse imageId from request.")), []))
  ∧ (@ControllerV10._action_rebuild sample
       (JDict [("rebuild", JDict [("imageId", JStr "5")])])
       (sample_request [] false) "1" []
     = (Return (RResponse (webob.Response 202)),
        [compute_api.rebuild {| is_admin := false |} "1" (JStr "5") []])).
Proof.
  split.
  - apply (proj1 (@rebuild_legacy sample (JDict [("rebuild", JNone)])
             (sample_request [] false) "1" []) TypeError).
    reflexivity.
  - apply (proj1 (proj2 (@rebuild_legacy sample
             (JDict [("rebuild", JDict [("imageId", JStr "5")])])
             (sample_request [] false) "1" [])) (JStr "5")).
    reflexivity.
Defined.

(** ** Personalities *)

Section Personalities.
Context `{Collaborators}.

Lemma dict_get_set_eq (k : string) (v : json) (d : list (string * json)) :
  dict_get k (dict_set k v d) = Some v.
Proof.
  induction d as [| [k' v'] d IH]; simpl.
  - by rewrite String.eqb_refl.
  - destruct (String.eqb k k') eqn:Hk; simpl.
    + by rewrite String.eqb_refl.
    + by rewrite Hk.
Qed.

Lemma dict_get_set_ne (k k' : string) (v : json) (d : list (string * json)) :
  k' ≠ k → dict_get k' (dict_set k v d) = dict_get k' d.
Proof.
  intros Hne. induction d as [| [k0 v0] d IH]; simpl.
  - by apply String.eqb_neq in Hne as ->.
  - destruct (String.eqb_spec k k0) as [<- | Hk0]; simpl.
    + by apply String.eqb_neq in Hne as ->.
    + by rewrite IH.
Qed.

Lemma getitem_raises (p : json) (k : string) (e : exn) :
  py_getitem p k = Raise e → is_KeyError_or_TypeError e = true.
Proof.
  unfold py_getitem. destruct p as [| | | | | d]; try by intros [= <-].
  destruct (dict_get k d); [done | by intros [= <-]].
Qed.

Lemma decode_personality_decodable (p : json) (l : log) :
  decodable p →
  ∃ d contents bytes,
    p = JDict d ∧ dict_get "contents" d = Some contents
    ∧ b64decode contents = Return bytes
    ∧ ControllerV11.decode_personality p l
      = (Return (JDict (dict_set "contents" bytes d)), l).
Proof.
  intros (path & contents & bytes & Hpath & Hcontents & Hbytes).
  destruct p as [| | | | | d]; try done.
  exists d, contents, bytes. split; [done |].
  assert (dict_get "contents" d = Some contents) as Hget.
  { unfold py_getitem in Hcontents. destruct (dict_get "contents" d); [| done].
    by injection Hcontents as ->. }
  split; [done |]. split; [done |].
  unfold ControllerV11.decode_personality, ControllerV11.personality_field,
    mbind, M_bind, try_except, lift.
  by rewrite Hpath, Hcontents, Hbytes.
Qed.

Lemma decode_personality_malformed (p : json) (l : log) :
  malformed p →
  ∃ explanation,
    ControllerV11.decode_personality p l
    = (Raise (HTTPException (exc.HTTPBadRequest explanation)), l).
Proof.
  unfold ControllerV11.decode_personality, ControllerV11.personality_field,
    mbind, M_bind, try_except, lift.
  intros [[e He] | [[e He] | (contents & Hget & Hbytes)]].
  - rewrite He, (getitem_raises _ _ _ He). by eexists.
  - destruct (py_getitem p "path") as [path | e'] eqn:Hpath.
    + rewrite He, (getitem_raises _ _ _ He). by eexists.
    + rewrite (getitem_raises _ _ _ Hpath). by eexists.
  - destruct (py_getitem p "path") as [path | e'] eqn:Hpath.
    + rewrite Hget, Hbytes. by eexists.
    + rewrite (getitem_raises _ _ _ Hpath). by eexists.
Qed.

End Personalities.

(** X15.  [_decode_personalities] on a list of personalities that each
    have a [path] and [contents] that decode: it makes no call and leaves
    a list of as many personalities, in the same order, where [contents]
    is the decoded value and every other entry, the [path] among them,
    is as it was. *)
Theorem personalities_decoded `{Collaborators} (ps : list json) (l : log) :
  Forall (fun p => ∃ path contents bytes,
            py_getitem p "path" = Return path
            ∧ py_getitem p "contents" = Return contents
            ∧ b64decode contents = Return bytes) ps →
  ∃ ps',
    ControllerV11._decode_personalities (JList ps) l = (Return (JList ps'), l)
    ∧ Forall2 (fun p p' =>
        (∃ contents, py_getitem p "contents" = Return contents
                     ∧ py_getitem p' "contents" = b64decode contents)
        ∧ ∀ k, k ≠ "contents" → py_getitem p' k = py_getitem p k) ps ps'.
Proof.
  intros Hgood.
  assert (∃ ps', for_each ControllerV11.decode_personality ps l = (Return ps', l)
            ∧ Forall2 (fun p p' =>
                (∃ contents, py_getitem p "contents" = Return contents
                             ∧ py_getitem p' "contents" = b64decode contents)
                ∧ ∀ k, k ≠ "contents" → py_getitem p' k = py_getitem p k) ps ps')
    as (ps' & Hrun & Hrel).
  { induction Hgood as [| p ps Hp _ IH].
    - exists []. split; [done | constructor].
    - destruct IH as (ps' & Hrun & Hrel).
      destruct (decode_personality_decodable p l Hp)
        as (d & contents & bytes & -> & Hget & Hbytes & Hdec).
      exists (JDict (dict_set "contents" bytes d) :: ps'). split.
      + cbn [for_each]. unfold mbind, M_bind. rewrite Hdec.
        fold (@mbind M _). unfold mbind, M_bind in Hrun |- *. by rewrite Hrun.
      + constructor; [| done]. split.
        * exists contents. unfold py_getitem.
          by rewrite Hget, dict_get_set_eq, Hbytes.
        * intros k Hk. unfold py_getitem. by rewrite dict_get_set_ne. }
  exists ps'. split; [| done].
  unfold ControllerV11._decode_personalities, mbind, M_bind, lift.
  cbn [py_iter]. unfold mbind, M_bind in Hrun. by rewrite Hrun.
Qed.

Lemma personalities_decoded_witness :
  @ControllerV11._decode_personalities sample_two
    (JList [JDict [("path", JStr "/etc/x"); ("contents", JStr "aGVsbG8=")]]) []
  = (Return (JList [JDict [("path", JStr "/etc/x"); ("contents", JStr "hello")]]), []).
Proof.
  destruct (@personalities_decoded sample_two
              [JDict [("path", JStr "/etc/x"); ("contents", JStr "aGVsbG8=")]] [])
    as (ps' & Hrun & _).
  - constructor; [| constructor].
    exists (JStr "/etc/x"), (JStr "aGVsbG8="), (JStr "hello").
    repeat split; reflexivity.
  - rewrite Hrun. vm_compute in Hrun. injection Hrun as <-. reflexivity.
Defined.

(** X16.  When every personality of the list either decodes or is one
    the loop rejects (no [path], no [contents], or [contents] that
    [b64decode] refuses with [TypeError]) and one at least is rejected,
    [_decode_personalities] raises [HTTPBadRequest], status 400, and
    makes no call. *)
Theorem personalities_rejected `{Collaborators} (ps : list json) (l : log) :
  Forall (fun p => decodable p ∨ malformed p) ps →
  Exists malformed ps →
  ∃ explanation,
    ControllerV11._decode_personalities (JList ps) l
    = (Raise (HTTPException (exc.HTTPBadRequest explanation)), l)
    ∧ status_int (exc.HTTPBadRequest explanation) = 400.
Proof.
  intros Hall Hbad.
  assert (∃ explanation,
            for_each ControllerV11.decode_personality ps l
            = (Raise (HTTPException (exc.HTTPBadRequest explanation)), l))
    as [explanation Hrun].
  { induction Hall as [| p ps Hp Hall IH]; [by apply Exists_nil in Hbad |].
    assert (malformed p ∨ (decodable p ∧ Exists malformed ps)) as [Hm | [Hd Hrest]].
    { apply Exists_cons in Hbad as [? | ?]; [by left |].
      destruct Hp; [by right | by left]. }
    - destruct (decode_personality_malformed p l Hm) as [explanation Hdec].
      exists explanation. cbn [for_each]. unfold mbind, M_bind. by rewrite Hdec.
    - destruct (IH Hrest) as [explanation Hrun].
      destruct (decode_personality_decodable p l Hd)
        as (d & contents & bytes & -> & _ & _ & Hdec).
      exists explanation. cbn [for_each]. unfold mbind, M_bind. rewrite Hdec.
      unfold mbind, M_bind in Hrun. by rewrite Hrun. }
  exists explanation. split; [| done].
  unfold ControllerV11._decode_personalities, mbind, M_bind, lift.
  cbn [py_iter]. unfold mbind, M_bind in Hrun. by rewrite Hrun.
Qed.

Lemma personalities_rejected_witness :
  ∃ explanation,
    @ControllerV11._decode_personalities sample_two
      (JList [JDict [("path", JStr "/etc/x"); ("contents", JStr "not base64")]]) []
    = (Raise (HTTPException (exc.HTTPBadRequest explanation)), [])
    ∧ status_int (exc.HTTPBadRequest explanation) = 400.
Proof.
  apply (@personalities_rejected sample_two).
  - constructor; [| constructor]. right. right; right.
    exists (JStr "not base64"). split; reflexivity.
  - apply Exists_cons. left. right; right.
    exists (JStr "not base64"). split; reflexivity.
Defined.

(** ** The current rebuild *)

(** X17.  The current rebuild.  When [rebuild.imageRef] cannot be read,
    the handler raises [HTTPBadRequest], status 400, and makes no call;
    so it does for metadata that is not empty and not a dictionary.
    Otherwise the personalities are decoded first: if that raises, the
    exception leaves the handler and no call is made; if not, [rebuild]
    is called once with the image reference, the name, the metadata and
    the decoded personalities, [BuildInProgress] is answered by raising
    [HTTPConflict], status 409, and an answer gives 202. *)
Theorem rebuild_current `{Collaborators} (info : json) (request : Request)
    (instance_id : string) (l : log) :
  (∀ e, argument "rebuild" "imageRef" info = Raise e →
     ControllerV11._action_rebuild info request instance_id l
       = (Raise (HTTPException
            (exc.HTTPBadRequest "Could not parse imageRef from request.")), l))
  ∧ (∀ r image_href,
       py_getitem info "rebuild" = Return (JDict r) →
       dict_get "imageRef" r = Some image_href →
       let personalities := default (JList []) (dict_get "personality" r) in
       let metadata := default JNone (dict_get "metadata" r) in
       let name := default JNone (dict_get "name" r) in
       (py_bool metadata = true → (∀ m, metadata ≠ JDict m) →
          ControllerV11._action_rebuild info request instance_id l
            = (Raise (HTTPException (exc.HTTPBadRequest
                 "Unable to parse metadata key/value pairs.")), l))
       ∧ (py_bool metadata = false ∨ (∃ m, metadata = JDict m) →
          match (ControllerV11._decode_personalities personalities l).1 with
          | Raise e =>
              ControllerV11._action_rebuild info request instance_id l = (Raise e, l)
          | Return decoded =>
              let call := compute_api.rebuild (nova_context request) instance_id
                            image_href [name; metadata; decoded] in
              ControllerV11._action_rebuild info request instance_id l
                = (match compute_api_answer l call with
                   | Return _ => Return (RResponse (webob.Response 202))
                   | Raise e =>
                       if is_BuildInProgress e
                       then Raise (HTTPException (exc.HTTPConflict
                              ("Instance " +:+ instance_id
                               +:+ " is currently being rebuilt.")))
                       else Raise e
                   end, l ++ [call])
          end)).
Proof.
  split.
  - intros e Harg. pose proof (argument_raises _ _ _ _ Harg) as Hkind.
    unfold ControllerV11._action_rebuild, try_except, lift.
    unfold mbind at 1, M_bind at 1. by rewrite Harg, Hkind.
  - intros r image_href Hrebuild Href personalities metadata name.
    assert (argument "rebuild" "imageRef" info = Return image_href) as Harg.
    { unfold argument. rewrite Hrebuild. unfold py_getitem. by rewrite Href. }
    assert (ControllerV11._action_rebuild info request instance_id l
            = (_ ← (if py_bool metadata
                    then ControllerV11._validate_metadata metadata else mret tt);
               personalities ← ControllerV11._decode_personalities personalities;
               _ ← try_except
                     (_ ← invoke (compute_api.rebuild (nova_context request)
                                    instance_id image_href
                                    [name; metadata; personalities]);
                      mret tt)
                     (fun e =>
                        if is_BuildInProgress e
                        then Some (raise (HTTPException (exc.HTTPConflict
                               ("Instance " +:+ instance_id
                                +:+ " is currently being rebuilt."))))
                        else None);
               mret (RResponse (webob.Response 202))) l) as ->.
    { unfold ControllerV11._action_rebuild, try_except, lift.
      unfold mbind at 1, M_bind at 1. rewrite Harg.
      unfold mbind at 1, M_bind at 1. rewrite Hrebuild.
      unfold mbind at 1, M_bind at 1. cbn [ControllerV11.dict_get_default].
      unfold mbind at 1, M_bind at 1. unfold mbind at 1, M_bind at 1.
      done. }
    pose proof (appends_0 _ l (decode_personalities_silent personalities)) as Hlog.
    split.
    + intros Htruthy Hshape. unfold mbind at 1, M_bind at 1. rewrite Htruthy.
      destruct metadata as [| | | | | m]; try done. by destruct (Hshape m).
    + intros Hmeta.
      assert ((if py_bool metadata
               then ControllerV11._validate_metadata metadata else mret tt) l
              = (Return tt, l)) as Hvalid.
      { destruct Hmeta as [-> | [m ->]]; [done |]. by destruct (py_bool (JDict m)). }
      destruct (ControllerV11._decode_personalities personalities l)
        as [[decoded | e] l'] eqn:Hdec; simpl in Hlog; subst l'; simpl.
      * unfold mbind at 1, M_bind at 1. rewrite Hvalid.
        unfold mbind at 1, M_bind at 1. rewrite Hdec.
        unfold mbind, M_bind, try_except, invoke.
        destruct (compute_api_answer l _) as [a | e]; [done |].
        by destruct (is_BuildInProgress e).
      * unfold mbind at 1, M_bind at 1. rewrite Hvalid.
        unfold mbind at 1, M_bind at 1. by rewrite Hdec.
Qed.

Lemma rebuild_current_witness :
  @ControllerV11._action_rebuild sample_two
    (JDict [("rebuild", JDict [
       ("imageRef", JStr "http://host/images/5");
       ("personality",
        JList [JDict [("path", JStr "/etc/x"); ("contents", JStr "aGVsbG8=")]])])])
    (sample_request [] false) "1" []
  = (Return (RResponse (webob.Response 202)),
     [compute_api.rebuild {| is_admin := false |} "1"
        (JStr "http://host/images/5")
        [JNone; JNone;
         JList [JDict [("path", JStr "/etc/x"); ("contents", JStr "hello")]]]]).
Proof.
  apply (proj2 (proj2 (@rebuild_current sample_two
           (JDict [("rebuild", JDict [
              ("imageRef", JStr "http://host/images/5");
              ("personality",
               JList [JDict [("path", JStr "/etc/x");
                             ("contents", JStr "aGVsbG8=")]])])])
           (sample_request [] false) "1" [])
         [("imageRef", JStr "http://host/images/5");
          ("personality",
           JList [JDict [("path", JStr "/etc/x"); ("contents", JStr "aGVsbG8=")]])]
         (JStr "http://host/images/5") eq_refl eq_refl)).
  left. reflexivity.
Defined.

(** ** More on the dispatcher *)

Section SingleKey.
Context `{Collaborators}.

Lemma action_loop_single (self : Methods) (keys : list string) req id
    (d : list (string * json)) (key : string)
    (handler : json → Request → string → M retval) (l : log) :
  key ∈ keys → is_Some (dict_get key d) →
  (∀ k, k ∈ keys → k ≠ key → dict_get k d = None) →
  Controller.actions_get key (Controller.actions self) = Some handler →
  Controller.action_loop self keys req id (JDict d) l = handler (JDict d) req id l.
Proof.
  intros Hkey [x Hheld] Hothers Hhandler.
  induction keys as [| k keys IH]; [by apply not_elem_of_nil in Hkey |].
  rewrite action_loop_cons. cbn [py_contains].
  destruct (decide (k = key)) as [-> | Hne].
  - by rewrite Hheld, Hhandler.
  - rewrite (Hothers k) by (done || by left).
    apply IH.
    + apply elem_of_cons in Hkey as [-> | Hkey]; done.
    + intros k' Hk'. apply Hothers. by right.
Qed.

End SingleKey.

(** X18.  When the body holds one action name only, the dispatcher runs
    the handler the table binds to it, in whatever order the keys of the
    table come. *)
Theorem dispatch_single_key `{Collaborators} (self : Methods) (req : Request)
    (id : string) (d : list (string * json)) (key : string)
    (handler : json → Request → string → M retval) (l : log) :
  key ∈ action_names →
  is_Some (dict_get key d) →
  (∀ k, k ∈ action_names → k ≠ key → dict_get k d = None) →
  Controller.actions_get key (Controller.actions self) = Some handler →
  Controller.action self req id (JDict d) l
    = redirect_handler (handler (JDict d) req id) l.
Proof.
  intros Hkey Hheld Hothers Hhandler.
  unfold Controller.action, redirect_handler, try_except.
  rewrite (action_loop_single self actions_keys req id d key handler); try done.
  - by rewrite actions_keys_perm.
  - intros k Hk. apply Hothers. by rewrite <- actions_keys_perm.
Qed.

Lemma dispatch_single_key_witness :
  @Controller.action sample_off (@create_resource sample_off V10)
    (sample_request [] false) "1"
    (JDict [("confirmResize", JNone); ("note", JStr "x")]) []
  = redirect_handler
      (@Controller._action_confirm_resize sample_off
         (JDict [("confirmResize", JNone); ("note", JStr "x")])
         (sample_request [] false) "1") [].
Proof.
  apply (@dispatch_single_key sample_off (@create_resource sample_off V10)
           (sample_request [] false) "1"
           [("confirmResize", JNone); ("note", JStr "x")] "confirmResize").
  - unfold action_names. solve [repeat constructor].
  - by eexists.
  - intros k Hk Hne.
    apply action_names_cases in Hk as [-> | [-> | [-> | [-> | [-> | [-> | ->]]]]]];
      done.
  - reflexivity.
Defined.

(** X19.  The reboot type is read and not used: two bodies that both
    have a [reboot.type], whatever the types are, make the handler do
    the same thing, and the call to the compute API does not carry the
    type. *)
Theorem reboot_type_unused `{Collaborators} (body1 body2 : json)
    (type1 type2 : json) (req : Request) (id : string) (l : log) :
  argument "reboot" "type" body1 = Return type1 →
  argument "reboot" "type" body2 = Return type2 →
  Controller._action_reboot body1 req id l = Controller._action_reboot body2 req id l
  ∧ (Controller._action_reboot body1 req id l).2
    = l ++ [compute_api.reboot (nova_context req) id].
Proof.
  intros H1 H2.
  unfold Controller._action_reboot, mbind, M_bind, lift, try_except, invoke.
  rewrite (argument_present _ _ _ _ H1), (argument_present _ _ _ _ H2), H1, H2.
  split; [done |]. by destruct (compute_api_answer l _).
Qed.

Lemma reboot_type_unused_witness :
  @Controller._action_reboot sample
    (JDict [("reboot", JDict [("type", JStr "SOFT")])]) (sample_request [] false) "1" []
  = @Controller._action_reboot sample
      (JDict [("reboot", JDict [("type", JStr "HARD")])]) (sample_request [] false) "1" [].
Proof.
  apply (@reboot_type_unused sample
           (JDict [("reboot", JDict [("type", JStr "SOFT")])])
           (JDict [("reboot", JDict [("type", JStr "HARD")])])
           (JStr "SOFT") (JStr "HARD")).
  - reflexivity.
  - reflexivity.
Defined.

(** X20.  When the test for [reboot.type] or for [resize.flavorId]
    passes but the field cannot be read (the value under the action name
    is a string or a list that contains the field name), the reboot
    handler and the legacy resize handler end with the exception of the
    subscript, which nothing catches, and make no call. *)
Theorem argument_unreadable `{Collaborators} (input_dict : json) (req : Request)
    (id : string) (e : exn) (l : log) :
  (has_argument "reboot" "type" input_dict = Return true →
   argument "reboot" "type" input_dict = Raise e →
   Controller._action_reboot input_dict req id l = (Raise e, l))
  ∧ (has_argument "resize" "flavorId" input_dict = Return true →
     argument "resize" "flavorId" input_dict = Raise e →
     ControllerV10._action_resize input_dict req id l = (Raise e, l)).
Proof.
  split; intros Htest Harg.
  - unfold Controller._action_reboot, mbind, M_bind, lift.
    by rewrite Htest, Harg.
  - unfold ControllerV10._action_resize, mbind, M_bind, lift.
    by rewrite Htest, Harg.
Qed.

Lemma argument_unreadable_witness :
  @Controller._action_reboot sample (JDict [("reboot", JStr "my type")])
    (sample_request [] false) "1" []
  = (Raise TypeError, []).
Proof.
  apply (proj1 (@argument_unreadable sample (JDict [("reboot", JStr "my type")])
                  (sample_request [] false) "1" TypeError [])).
  - reflexivity.
  - reflexivity.
Defined.

(** ** Delete and the consoles *)

(** X21.  Both versions of [delete] make the same single call; when the
    compute API raises [NotFound] both raise [HTTPNotFound], status 404,
    and an exception that is neither [NotFound] nor a redirect leaves
    either handler as it was raised. *)
Theorem delete_errors `{Collaborators} (req : Request) (id : string)
    (l : log) (e : exn) :
  let call := compute_api.delete (nova_context req) id in
  compute_api_answer l call = Raise e →
  (∀ results, e ≠ RedirectResult results) →
  let outcome := if is_NotFound e
                 then Raise (HTTPException exc.HTTPNotFound) else Raise e in
  ControllerV10.delete req id l = (outcome, l ++ [call])
  ∧ ControllerV11.delete req id l = (outcome, l ++ [call])
  ∧ status_int exc.HTTPNotFound = 404.
Proof.
  intros call Hanswer Hredirect. simpl.
  unfold ControllerV10.delete, ControllerV11.delete, redirect_handler,
    try_except, mbind, M_bind, invoke.
  fold call. rewrite Hanswer.
  destruct e; try done. by destruct (Hredirect results).
Qed.

Lemma delete_errors_witness :
  @ControllerV11.delete sample (sample_request [] false) "7" []
  = (Raise (HTTPException exc.HTTPNotFound),
     [compute_api.delete {| is_admin := false |} "7"]).
Proof.
  apply (@delete_errors sample (sample_request [] false) "7" [] NotFound).
  - reflexivity.
  - discriminate.
Defined.


